(** * SpeakerRecognition: the helper notebook [commons.ipynb]

    A shallow embedding of the functions of [commons.ipynb] (dimension
    calculator, feature extractors, batch feature pipeline, label encoder,
    the regularised CNN builder and the evaluator) and the properties the
    specification states about them.

    Conventions of the embedding:
    - Python [int] is [Z]; [//] is floor division, which raises
      [ZeroDivisionError] on a zero divisor;
    - Python [float] is the kernel's binary64 [float];
    - a call either returns a value or raises: [result];
    - [print], [logging.info] and the matplotlib calls write: a run of a
      function is the list of what it wrote together with its [result];
      [plt.savefig] also writes a file, and raises when it cannot. *)

From Stdlib Require Import ZArith Floats Ascii.
From stdpp Require Import base decidable list strings sorting gmap pretty.

Local Open Scope Z_scope.

(** ** Python exceptions and results *)

Inductive exn : Type :=
| ZeroDivisionError
| UnboundLocalError (var : string)
| ValueError (msg : string)
| KeyError (key : string)
| LibraryError (msg : string).

Inductive result (A : Type) : Type :=
| Ok (a : A)
| Raise (e : exn).
Arguments Ok {A} a.
Arguments Raise {A} e.

Definition is_ok {A} (r : result A) : bool :=
  match r with Ok _ => true | Raise _ => false end.

(** [a // b] on Python integers. [Z.div] rounds towards minus infinity for
    either sign of the divisor, as Python does. *)
Definition floordiv (a b : Z) : result Z :=
  if decide (b = 0) then Raise ZeroDivisionError else Ok (a / b).

(** ** Arrays

    A numpy array of floats: its shape and its elements in row-major order. *)

Record ndarray : Type := mk_ndarray { shape : list nat; data : list float }.

(** The rows of a two-dimensional array. *)
Definition rows (a : ndarray) : list (list float) :=
  match shape a with
  | [n; k] => reshape (replicate n k) (data a)
  | _ => []
  end.

(** The array with the given rows, each of length [k]. *)
Definition of_rows (k : nat) (rs : list (list float)) : ndarray :=
  {| shape := [length rs; k]; data := concat rs |}.

(** [np.array(xs)] on a Python list of arrays. The empty list gives the
    one-dimensional empty array; arrays of one common shape [s] are stacked
    along a new first axis. A list of arrays of different shapes is rejected
    with [ValueError] (numpy 1.24 and later: "inhomogeneous shape"; earlier
    versions fail to broadcast when, as for feature matrices made with one
    parameter set, the arrays agree on their first dimension). *)
Definition np_array (xs : list ndarray) : result ndarray :=
  match xs with
  | [] => Ok {| shape := [0%nat]; data := [] |}
  | x :: rest =>
      if decide (Forall (λ y, shape y = shape x) rest)
      then Ok {| shape := length xs :: shape x; data := concat (data <$> xs) |}
      else Raise (ValueError "inhomogeneous shape")
  end.

(** ** Layers of a Keras model

    A [Sequential] model is the list of its layers; a layer is its
    constructor call, with the keyword arguments the notebook uses (an
    argument left out is [None]). *)

Inductive activation_fn : Type :=
| ActLeakyReLU (alpha : float)
| ActSoftmax.

Inductive regularizer : Type :=
| l2 (factor : float).

Inductive layer : Type :=
| Conv2D (filters : Z) (kernel_size : Z * Z) (strides : option (Z * Z))
    (padding : string) (input_shape : option (Z * Z * Z))
    (activation : option activation_fn) (kernel_regularizer : option regularizer)
| Dropout (rate : float)
| Flatten
| Dense (units : Z) (activation : option activation_fn)
    (kernel_regularizer : option regularizer)
| BatchNormalization
| LeakyReLU (alpha : float).

(** ** Output of a run *)

Inductive plt_call : Type :=
| Figure (width height : Z)
| Subplots (nrows ncols : Z) (figsize : Z * Z)
| Subplot (nrows ncols index : Z)
| StyleUse (style : string)
| Specshow (m : ndarray) (y_axis : string)
| Title (text : string)
| XLabel (text : string)
| YLabel (text : string)
| Colorbar (format : option string)
| Grid (on : bool)
| ConfusionMatrixDisplay (m : list (list nat))
| AxPlot (axis : nat) (xs ys : list float) (label : string)
| AxLegend (axis : nat) (loc : string)
| Savefig (fname : string)
| Show.

Record report_row : Type := mk_report_row {
  class_name : string;
  precision : float;
  recall : float;
  support : nat
}.

Inductive event : Type :=
| Print (line : string)
| PrintMatrix (m : list (list nat))
| PrintReport (r : list report_row)
| PrintSummary (layers : list layer)
| LogInfo (line : string)
| Plt (call : plt_call).

(** A run: what was written, and how the call ended. *)
Definition py (A : Type) : Type := list event * result A.

Definition output {A} (m : py A) : list event := m.1.
Definition outcome {A} (m : py A) : result A := m.2.

(** The value a run returned, if it returned. *)
Definition to_option {A} (m : py A) : option A :=
  match outcome m with Ok x => Some x | Raise _ => None end.

Definition py_ret {A} (x : A) : py A := ([], Ok x).

Definition py_bind {A B} (m : py A) (f : A → py B) : py B :=
  match m with
  | (out, Ok x) => let (out', r) := f x in (out ++ out', r)
  | (out, Raise e) => (out, Raise e)
  end.

Definition emit (e : event) : py unit := ([e], Ok tt).
Definition raise {A} (e : exn) : py A := ([], Raise e).
Definition lift {A} (r : result A) : py A := ([], r).

Declare Scope py_scope.
Delimit Scope py_scope with py.
Notation "x <- m ;; k" := (py_bind m (λ x, k))
  (at level 100, m at next level, right associativity) : py_scope.
Notation "m ;;; k" := (py_bind m (λ _, k))
  (at level 100, right associativity) : py_scope.
Local Open Scope py_scope.

Definition when (b : bool) (m : py unit) : py unit :=
  if b then m else py_ret tt.

(** ** Dimension calculator *)

(** [sr] defaults to 16000 in the notebook; here every argument is passed. *)
Definition calculate_spectrogram_dimensions
    (sample_length n_fft hop_length sr : Z) : result (Z * Z) :=
  (* Total number of samples in the audio *)
  let total_samples := sr * sample_length in
  (* Number of frequency bins *)
  match floordiv n_fft 2 with
  | Raise e => Raise e
  | Ok q =>
      let frequency_bins := q + 1 in
      (* Number of time frames *)
      match floordiv (total_samples - n_fft) hop_length with
      | Raise e => Raise e
      | Ok f =>
          let time_frames := 1 + f in
          Ok (frequency_bins, time_frames)
      end
  end.

(** ** Feature extractors

    The signal-processing routines are librosa's and numpy's; the notebook
    only chains them. They are taken as an interface: each takes the
    arguments the notebook passes, in the order of the comment, and either
    returns an array or raises. *)

Class Librosa : Type := {
  complex_ndarray : Type;
  (* librosa.stft(y, n_fft=, hop_length=) *)
  librosa_stft : ndarray → Z → Z → result complex_ndarray;
  (* np.abs(stft) *)
  np_abs : complex_ndarray → ndarray;
  (* a ** 2 *)
  np_square : ndarray → ndarray;
  (* librosa.amplitude_to_db(S, ref=np.max) *)
  librosa_amplitude_to_db : ndarray → result ndarray;
  (* librosa.power_to_db(S, ref=np.max) *)
  librosa_power_to_db : ndarray → result ndarray;
  (* librosa.feature.melspectrogram(y=, sr=, n_fft=, hop_length=, n_mels=) *)
  librosa_feature_melspectrogram : ndarray → Z → Z → Z → Z → result ndarray;
  (* librosa.feature.mfcc(y=, sr=, n_mfcc=, n_fft=, hop_length=) *)
  librosa_feature_mfcc : ndarray → Z → Z → Z → Z → result ndarray;
  (* librosa.feature.chroma_stft(S=, n_chroma=, sr=) *)
  librosa_feature_chroma_stft : ndarray → Z → Z → result ndarray;
  (* librosa.feature.spectral_contrast(S=, sr=) *)
  librosa_feature_spectral_contrast : ndarray → Z → result ndarray
}.

Section Extractors.
Context {librosa : Librosa}.

Definition extract_MFCCs (y : ndarray) (sr n_fft hop_length n_mfcc : Z)
    (show_plt : bool) : py ndarray :=
  mfccs <- lift (librosa_feature_mfcc y sr n_mfcc n_fft hop_length) ;;
  when show_plt (
    emit (Plt (Figure 14 5)) ;;;
    emit (Plt (Specshow mfccs "mel")) ;;;
    emit (Plt (Title "MFCC")) ;;;
    emit (Plt (Colorbar None)) ;;;
    emit (Plt Show)) ;;;
  py_ret mfccs.

Definition extract_stft_spectrogram (y : ndarray) (sr hop_length : Z)
    (show_plt : bool) (n_fft : Z) : py ndarray :=
  stft <- lift (librosa_stft y n_fft hop_length) ;;
  let spect := np_abs stft in
  spect <- lift (librosa_amplitude_to_db spect) ;;
  when show_plt (
    emit (Plt (Figure 14 5)) ;;;
    emit (Plt (Specshow spect "log")) ;;;
    emit (Plt (Title "Spectrogram")) ;;;
    emit (Plt (Colorbar (Some "%+2.0f dB"))) ;;;
    emit (Plt Show)) ;;;
  py_ret spect.

Definition extract_mel_spectrogram (y : ndarray) (sr hop_length : Z)
    (show_plt : bool) (n_fft n_mels : Z) : py ndarray :=
  mel_spect <- lift (librosa_feature_melspectrogram y sr n_fft hop_length n_mels) ;;
  mel_spect <- lift (librosa_power_to_db mel_spect) ;;
  when show_plt (
    emit (Plt (Figure 14 5)) ;;;
    emit (Plt (Specshow mel_spect "mel")) ;;;
    emit (Plt (Title "Mel Spectrogram")) ;;;
    emit (Plt (Colorbar (Some "%+2.0f dB"))) ;;;
    emit (Plt Show)) ;;;
  py_ret mel_spect.

Definition extract_chroma_stft (y : ndarray) (sr hop_length n_fft n_chroma : Z)
    : py ndarray :=
  c <- lift (librosa_stft y n_fft hop_length) ;;
  let stft := np_square (np_abs c) in
  chroma_stft <- lift (librosa_feature_chroma_stft stft n_chroma sr) ;;
  py_ret chroma_stft.

Definition extract_spectral_contrast (y : ndarray) (sr hop_length n_fft : Z)
    : py ndarray :=
  c <- lift (librosa_stft y n_fft hop_length) ;;
  let stft := np_abs c in
  spec_contr <- lift (librosa_feature_spectral_contrast stft sr) ;;
  py_ret spec_contr.

(** ** Batch feature pipeline *)

(** [str(t)] for a tuple of integers: [(3,)], [(10, 128, 8)]. *)
Definition tuple_repr (t : list nat) : string :=
  match t with
  | [] => "()"
  | [n] => "(" +:+ pretty n +:+ ",)"
  | n :: ns => "(" +:+ pretty n +:+ foldr (λ m acc, ", " +:+ pretty m +:+ acc) ")" ns
  end.

(** The locals the loop of [extract_features] carries from one round to
    the next: [spect], unbound until a branch assigns it, and the list
    [features]. *)
Record loop_state : Type := mk_loop_state {
  spect : option ndarray;
  features : list ndarray
}.

Section Loop.
Variables (feature : string) (sr hop_length n_fft n_mels n_chroma n_mfcc : Z).
Variables (show_logs show_plt : bool) (features_length : nat).

(** The [if]/[elif] chain; it has no [else]. *)
Definition dispatch (data : ndarray) (st : loop_state) : py (option ndarray) :=
  if decide (feature = "Stft") then
    s <- extract_stft_spectrogram data sr hop_length show_plt n_fft ;; py_ret (Some s)
  else if decide (feature = "Mel") then
    s <- extract_mel_spectrogram data sr hop_length show_plt n_fft n_mels ;; py_ret (Some s)
  else if decide (feature = "MFCC") then
    s <- extract_MFCCs data sr n_fft hop_length n_mfcc show_plt ;; py_ret (Some s)
  else if decide (feature = "ChromaStft") then
    s <- extract_chroma_stft data sr hop_length n_fft n_chroma ;; py_ret (Some s)
  else if decide (feature = "SpectralContrast") then
    s <- extract_spectral_contrast data sr hop_length n_fft ;; py_ret (Some s)
  else py_ret (spect st).

Definition loop_body (i : nat) (data : ndarray) (st : loop_state) : py loop_state :=
  sp <- dispatch data st ;;
  match sp with
  | None => raise (UnboundLocalError "spect")
  | Some s =>
      let features := features st ++ [s] in
      when (show_logs && Nat.eqb (i `mod` 50) 0) (
        emit (LogInfo ("Extracted " +:+ pretty i +:+ "/" +:+
                       pretty features_length +:+ " features."))) ;;;
      py_ret {| spect := Some s; features := features |}
  end.

(** [for i, data in enumerate(samples)], from index [i] on. *)
Fixpoint for_loop (i : nat) (samples : list ndarray) (st : loop_state)
    : py loop_state :=
  match samples with
  | [] => py_ret st
  | data :: rest => st' <- loop_body i data st ;; for_loop (S i) rest st'
  end.
End Loop.

Definition extract_features (samples : list ndarray) (feature : string)
    (sr hop_length n_fft n_mels n_chroma n_mfcc : Z)
    (show_logs show_plt : bool) : py ndarray :=
  let features_length := length samples in
  st <- for_loop feature sr hop_length n_fft n_mels n_chroma n_mfcc
          show_logs show_plt features_length 0
          samples {| spect := None; features := [] |} ;;
  features <- lift (np_array (features st)) ;;
  when show_logs (
    emit (LogInfo ("Extracted features from " +:+ pretty features_length +:+
                   " audio files.")) ;;;
    emit (LogInfo ("Features shape: " +:+ tuple_repr (shape features)))) ;;;
  py_ret features.

(** The tags the dispatch knows. *)
Definition feature_tags : list string :=
  ["Stft"; "Mel"; "MFCC"; "ChromaStft"; "SpectralContrast"].

(** The single-item extractor a tag selects, without its plot. *)
Definition extractor (feature : string) (sr hop_length n_fft n_mels n_chroma n_mfcc : Z)
    (data : ndarray) : result ndarray :=
  (if decide (feature = "Stft") then
     extract_stft_spectrogram data sr hop_length false n_fft
   else if decide (feature = "Mel") then
     extract_mel_spectrogram data sr hop_length false n_fft n_mels
   else if decide (feature = "MFCC") then
     extract_MFCCs data sr n_fft hop_length n_mfcc false
   else if decide (feature = "ChromaStft") then
     extract_chroma_stft data sr hop_length n_fft n_chroma
   else if decide (feature = "SpectralContrast") then
     extract_spectral_contrast data sr hop_length n_fft
   else raise (UnboundLocalError "spect")).2.

(** The results of a list of calls made in order: the values if all
    return, else the first exception. *)
Fixpoint collect {A} (rs : list (result A)) : result (list A) :=
  match rs with
  | [] => Ok []
  | Raise e :: _ => Raise e
  | Ok x :: rs' =>
      match collect rs' with
      | Ok xs => Ok (x :: xs)
      | Raise e => Raise e
      end
  end.

(** The single-item extractor applied to each waveform in input order,
    and the results stacked. *)
Definition stacked (feature : string) (sr hop_length n_fft n_mels n_chroma n_mfcc : Z)
    (samples : list ndarray) : result ndarray :=
  match collect (extractor feature sr hop_length n_fft n_mels n_chroma n_mfcc <$> samples) with
  | Ok fs => np_array fs
  | Raise e => Raise e
  end.
End Extractors.

(** A stand-in for librosa that returns arrays of zeros of the shapes
    librosa documents (frames are counted with centred windows); it serves
    to run the pipeline on concrete inputs. *)
Definition zeros2 (r c : nat) : ndarray :=
  {| shape := [r; c]; data := replicate (r * c) 0%float |}.

Definition columns (a : ndarray) : nat :=
  match shape a with [_; c] => c | _ => 0%nat end.

Definition frames (y : ndarray) (hop_length : Z) : nat :=
  Z.to_nat (1 + Z.of_nat (length (data y)) / hop_length).

Definition checked (n_fft hop_length : Z) (a : ndarray) : result ndarray :=
  if decide (0 < n_fft ∧ 0 < hop_length) then Ok a
  else Raise (LibraryError "ParameterError").

Definition zeros_librosa : Librosa := {|
  complex_ndarray := ndarray;
  librosa_stft y n_fft hop_length :=
    checked n_fft hop_length (zeros2 (Z.to_nat (1 + n_fft / 2)) (frames y hop_length));
  np_abs a := a;
  np_square a := a;
  librosa_amplitude_to_db a := Ok a;
  librosa_power_to_db a := Ok a;
  librosa_feature_melspectrogram y sr n_fft hop_length n_mels :=
    checked n_fft hop_length (zeros2 (Z.to_nat n_mels) (frames y hop_length));
  librosa_feature_mfcc y sr n_mfcc n_fft hop_length :=
    checked n_fft hop_length (zeros2 (Z.to_nat n_mfcc) (frames y hop_length));
  librosa_feature_chroma_stft S n_chroma sr := Ok (zeros2 (Z.to_nat n_chroma) (columns S));
  librosa_feature_spectral_contrast S sr := Ok (zeros2 7 (columns S))
|}.

(** A waveform of [n] silent samples. *)
Definition silence (n : nat) : ndarray :=
  {| shape := [n]; data := replicate n 0%float |}.

(** ** Formatting floats

    [format(x, '.<d>f')]: the decimal expansion of [x] with [d] digits after
    the point, correctly rounded from the exact binary value, ties to even. *)

Definition round_half_even (num den : Z) : Z :=
  let q := num / den in
  let r := num `mod` den in
  if 2 * r <? den then q
  else if 2 * r =? den then (if Z.even q then q else q + 1)
  else q + 1.

Fixpoint zeros (n : nat) : string :=
  match n with
  | O => ""
  | S n' => "0" +:+ zeros n'
  end.

Definition zero_pad (d : nat) (s : string) : string :=
  zeros (d - String.length s) +:+ s.

Definition fixed_point (d : nat) (negative : bool) (t : Z) : string :=
  (if negative then "-" else "") +:+ pretty (t / 10 ^ Z.of_nat d) +:+
  match d with
  | O => ""
  | _ => "." +:+ zero_pad d (pretty (t `mod` 10 ^ Z.of_nat d))
  end.

Definition format_f (d : nat) (x : float) : string :=
  match Prim2SF x with
  | S754_nan => "nan"
  | S754_infinity s => if s then "-inf" else "inf"
  | S754_zero s => fixed_point d s 0
  | S754_finite s m e =>
      let num := Z.pos m * 10 ^ Z.of_nat d * 2 ^ Z.max e 0 in
      let den := 2 ^ Z.max (- e) 0 in
      fixed_point d s (round_half_even num den)
  end.

(** [float(n)] for a count [n]; counts are below 2^63. *)
Definition float_of_nat (n : nat) : float :=
  PrimFloat.of_uint63 (Uint63.of_Z (Z.of_nat n)).

Definition float_of_Z (n : Z) : float :=
  if n <? 0 then PrimFloat.opp (PrimFloat.of_uint63 (Uint63.of_Z (- n)))
  else PrimFloat.of_uint63 (Uint63.of_Z n).

(** ** Labels

    Class labels are values of a type with a decidable total order (speaker
    names, integer class indices); [label_repr] and [label_str] are Python's
    [repr] and [str]. *)

Class Label (L : Type) : Type := {
  label_eq_dec :: EqDecision L;
  label_le : relation L;
  label_le_dec :: RelDecision label_le;
  label_le_total :: TotalOrder label_le;
  label_repr : L → string;
  label_str : L → string
}.

(** ** NumPy's array constructor on labels

    [np.array(labels)] stores a list of scalars with one dtype: it finds the
    dtype that holds them all ([result_type]) and converts each scalar to it
    ([astype]), so labels of mixed kinds change their value: an integer
    next to a string becomes a string, a large integer next to a small one
    a float. The dtype found depends on which scalars occur, not on their
    order or number. Labels that are a NumPy array already are stored as
    they are. Labels are scalars (numbers, strings), so that the array has
    one element per label and [reshape(-1, 1)] makes it one column. A scalar
    and what it is stored as are values of the one type [L]; [scalar_repr]
    is [repr] of an element of the array. *)

Class Numpy (L : Type) : Type := {
  dtype : Type;
  result_type : list L → dtype;
  astype : dtype → L → L;
  scalar_repr : dtype → L → string;
  result_type_elements (l l' : list L) :
    (∀ x, x ∈ l ↔ x ∈ l') → result_type l = result_type l'
}.

Section Labels.
Context {L : Type} {label : Label L} {numpy : Numpy L}.

(** [np.array(labels).reshape(-1, 1)]: the labels as one column. *)
Definition np_array_reshape (labels : list L) : list L :=
  astype (result_type labels) <$> labels.

(** [np.unique]: sort, then keep an element when it differs from the one
    before it. *)
Fixpoint drop_repeats (prev : L) (l : list L) : list L :=
  match l with
  | [] => []
  | x :: l' =>
      if decide (x = prev) then drop_repeats prev l'
      else x :: drop_repeats x l'
  end.

Definition np_unique (l : list L) : list L :=
  match merge_sort label_le l with
  | [] => []
  | x :: s => x :: drop_repeats x s
  end.

(** *** sklearn's [OneHotEncoder], on one column of labels

    Fitting validates its input, which must hold at least one sample, and
    stores the sorted distinct values as [categories_[0]]. Transforming
    writes, for each sample, a 1 in the column of its category. *)

Record OneHotEncoder : Type := { categories_0 : list L }.

Definition onehot_row (categories : list L) (x : L) : list float :=
  (λ c, if decide (c = x) then 1%float else 0%float) <$> categories.

Definition fit_transform (labels : list L) : result (OneHotEncoder * ndarray) :=
  match labels with
  | [] => Raise (ValueError
            "Found array with 0 sample(s) (shape=(0, 1)) while a minimum of 1 is required.")
  | _ =>
      let categories := np_unique labels in
      Ok ({| categories_0 := categories |},
          of_rows (length categories) (onehot_row categories <$> labels))
  end.

(** [repr] of the dict [{0: c0, 1: c1, ...}] of elements of an array of
    dtype [d]. *)
Fixpoint dict_items_repr (d : dtype) (i : nat) (cs : list L) : string :=
  match cs with
  | [] => ""
  | [c] => pretty i +:+ ": " +:+ scalar_repr d c
  | c :: cs' =>
      pretty i +:+ ": " +:+ scalar_repr d c +:+ ", " +:+ dict_items_repr d (S i) cs'
  end.

Definition onehot_encode (labels : list L) : py (ndarray * gmap nat L) :=
  emit (Print "[INFO] Performing one-hot encoding on multiple nodes...") ;;;
  let d := result_type labels in
  let labels := np_array_reshape labels in
  fitted <- lift (fit_transform labels) ;;
  let encoder := fitted.1 in
  let labels_onehot := fitted.2 in
  (* Display the mapping between original classes and one-hot encoded columns *)
  let original_classes := categories_0 encoder in
  let mapping : gmap nat L := map_seq 0 original_classes in
  emit (Print "Mapping between column indices and original classes:") ;;;
  emit (Print ("{" +:+ dict_items_repr d 0 original_classes +:+ "}")) ;;;
  emit (Print ("Labels encoded using OneHotEncoder(), labels.shape: " +:+
               tuple_repr (shape labels_onehot))) ;;;
  py_ret (labels_onehot, mapping).

(** Decoding a one-hot row through the mapping: the label of the column
    that holds the 1. *)
Definition decode_row (mapping : gmap nat L) (row : list float) : option L :=
  list_find (λ v, PrimFloat.eqb v 1 = true) row ≫= λ hit, mapping !! hit.1.

Definition decode (mapping : gmap nat L) (m : ndarray) : option (list L) :=
  mapM (decode_row mapping) (rows m).

(** *** sklearn's metrics *)

Definition check_consistent_length (y_true y_pred : list L) : result unit :=
  if decide (length y_true = length y_pred) then Ok tt
  else Raise (ValueError "Found input variables with inconsistent numbers of samples").

Definition unique_labels (y_true y_pred : list L) : list L :=
  np_unique (y_true ++ y_pred).

Definition count_label (c : L) (y : list L) : nat :=
  length (filter (λ x, x = c) y).

(** Samples with true label [t] and predicted label [p]. *)
Definition count_pairs (t p : L) (y_true y_pred : list L) : nat :=
  length (filter (λ tp, tp.1 = t ∧ tp.2 = p) (zip y_true y_pred)).

Definition confusion_matrix (y_true y_pred : list L) : result (list (list nat)) :=
  match check_consistent_length y_true y_pred with
  | Raise e => Raise e
  | Ok _ =>
      let labels := unique_labels y_true y_pred in
      Ok ((λ t, (λ p, count_pairs t p y_true y_pred) <$> labels) <$> labels)
  end.

(** The [zero_division] argument: ["warn"] (the default) or a value. *)
Inductive zero_division : Type :=
| ZdWarn
| ZdValue (v : float).

Definition zero_division_value (zd : zero_division) : float :=
  match zd with
  | ZdWarn => 0%float
  | ZdValue v => v
  end.

(** [_prf_divide]: the quotient, and the [zero_division] value where the
    denominator is 0. *)
Definition prf_divide (numerator denominator : nat) (zd : zero_division) : float :=
  if decide (denominator = 0%nat) then zero_division_value zd
  else (float_of_nat numerator / float_of_nat denominator)%float.

Definition report_line (y_true y_pred : list L) (zd : zero_division) (c : L)
    : report_row :=
  let tp_sum := count_pairs c c y_true y_pred in
  let pred_sum := count_label c y_pred in
  let true_sum := count_label c y_true in
  {| class_name := label_str c;
     precision := prf_divide tp_sum pred_sum zd;
     recall := prf_divide tp_sum true_sum zd;
     support := true_sum |}.

(** The per-class lines of [classification_report]; its f1 column and its
    average lines are left out. With no class at all the layout of the
    report fails. *)
Definition classification_report (y_true y_pred : list L) (zd : zero_division)
    : result (list report_row) :=
  match check_consistent_length y_true y_pred with
  | Raise e => Raise e
  | Ok _ =>
      match unique_labels y_true y_pred with
      | [] => Raise (ValueError "max() arg is an empty sequence")
      | labels => Ok (report_line y_true y_pred zd <$> labels)
      end
  end.

Definition accuracy_score (y_true y_pred : list L) : result float :=
  match check_consistent_length y_true y_pred with
  | Raise e => Raise e
  | Ok _ =>
      let score := filter (λ tp, tp.1 = tp.2) (zip y_true y_pred) in
      Ok (float_of_nat (length score) / float_of_nat (length y_true))%float
  end.
End Labels.

(** Integer class labels, in their usual order. *)
Lemma Z_le_total_order : TotalOrder Z.le.
Proof.
  split; [apply _ |].
  intros x y. unfold strict. lia.
Qed.

Definition Z_label : Label Z := {|
  label_le := Z.le;
  label_le_total := Z_le_total_order;
  label_repr := pretty;
  label_str := pretty
|}.

(** A stand-in for [np.array] on labels that are a NumPy array already:
    they are stored as they are. *)
Definition ndarray_labels (L : Type) {label : Label L} : Numpy L := {|
  dtype := unit;
  result_type _ := tt;
  astype _ x := x;
  scalar_repr _ := label_repr;
  result_type_elements _ _ _ := eq_refl
|}.

(** A stand-in for [np.array] on a list of Python integers. An integer
    from -2^63 to 2^63 - 1 is an [int64], one from 2^63 to 2^64 - 1 a
    [uint64], any other a Python object; a list with both [int64] and
    [uint64] integers is stored as [float64], every integer rounded to the
    nearest double. A double is written as the integer it is equal to, and
    [repr] of an element is the number as Python writes it. *)
Inductive int_dtype : Type := int64 | uint64 | float64 | object_.

Definition int_result_type (l : list Z) : int_dtype :=
  if decide (Exists (λ z, z < - 2 ^ 63 ∨ 2 ^ 64 ≤ z) l) then object_
  else if decide (Exists (λ z, 2 ^ 63 ≤ z) l) then
    if decide (Exists (λ z, z < 2 ^ 63) l) then float64 else uint64
  else if decide (l = []) then float64
  else int64.

(** [float(z)], as an integer: [z] rounded to 53 significant bits, ties to
    even. *)
Definition round_binary64 (z : Z) : Z :=
  let e := Z.log2 (Z.abs z) - 52 in
  if e <=? 0 then z
  else Z.sgn z * (round_half_even (Z.abs z) (2 ^ e) * 2 ^ e).

Definition int_astype (d : int_dtype) (z : Z) : Z :=
  match d with
  | float64 => round_binary64 z
  | _ => z
  end.

(** [repr] of a double that is the integer [v]: the shortest decimal that
    reads back as [v], in exponent notation from 1e16 on. *)
Fixpoint shortest_decimal (fuel : nat) (unit a : Z) : Z :=
  match fuel with
  | O => a
  | S fuel' =>
      let lo := a / unit * unit in
      let hi := lo + unit in
      let ok_lo := round_binary64 lo =? a in
      let ok_hi := round_binary64 hi =? a in
      if ok_lo && ok_hi then (if a - lo <=? hi - a then lo else hi)
      else if ok_lo then lo
      else if ok_hi then hi
      else shortest_decimal fuel' (unit / 10) a
  end.

Fixpoint strip_zeros (fuel : nat) (c : Z) : Z :=
  match fuel with
  | O => c
  | S fuel' => if c `mod` 10 =? 0 then strip_zeros fuel' (c / 10) else c
  end.

Definition float64_repr (v : Z) : string :=
  let a := Z.abs v in
  if a <? 10 ^ 16 then pretty v +:+ ".0"
  else
    let digits := String.length (pretty a) in
    let c := shortest_decimal digits (10 ^ Z.of_nat (digits - 1)) a in
    let exponent := (String.length (pretty c) - 1)%nat in
    let mantissa := pretty (strip_zeros exponent c) in
    (if v <? 0 then "-" else "") +:+
    match mantissa with
    | EmptyString => ""
    | String d EmptyString => String d EmptyString
    | String d rest => String d ("." +:+ rest)
    end +:+ "e+" +:+ pretty exponent.

Definition int_scalar_repr (d : int_dtype) (z : Z) : string :=
  match d with
  | float64 => float64_repr z
  | _ => pretty z
  end.

Lemma int_result_type_elements (l l' : list Z) :
  (∀ x, x ∈ l ↔ x ∈ l') → int_result_type l = int_result_type l'.
Proof.
  intros Hsame.
  assert (∀ P : Z → Prop, Exists P l ↔ Exists P l') as Hex.
  { intros P. rewrite !Exists_exists. by setoid_rewrite Hsame. }
  assert (l = [] ↔ l' = []) as Hnil.
  { split; intros ->.
    - destruct l' as [| x r]; [done |].
      exfalso. apply (not_elem_of_nil x), Hsame. left.
    - destruct l as [| x r]; [done |].
      exfalso. apply (not_elem_of_nil x), Hsame. left. }
  unfold int_result_type.
  repeat case_decide; try done; exfalso;
    repeat match goal with
           | H : Exists _ l |- _ => apply Hex in H
           | H : l = [] |- _ => apply Hnil in H
           | H : ¬ Exists _ l |- _ => rewrite Hex in H
           | H : l ≠ [] |- _ => rewrite Hnil in H
           end;
    done.
Qed.

Definition python_ints : Numpy Z := {|
  dtype := int_dtype;
  result_type := int_result_type;
  astype := int_astype;
  scalar_repr := int_scalar_repr;
  result_type_elements := int_result_type_elements
|}.

(** ** Model builder

    Keras checks the layers when [Sequential] is given them (the shapes must
    work out); that check is Keras's own and is taken as an interface. *)

Class Keras : Type := {
  keras_build : list layer → result unit
}.

Definition Sequential {keras : Keras} (layers : list layer) : result (list layer) :=
  match keras_build layers with
  | Ok _ => Ok layers
  | Raise e => Raise e
  end.

Set Warnings "-inexact-float".

Definition create_better_base_cnn_model {keras : Keras}
    (feature_width feature_height channels classes : Z) : py (list layer) :=
  (* Build the CNN model *)
  model <- lift (Sequential [
    Conv2D 64 (3, 3) None "same" (Some (feature_width, feature_height, channels))
      (Some (ActLeakyReLU 0.1)) (Some (l2 0.01));
    Conv2D 64 (3, 3) (Some (4, 4)) "same" None
      (Some (ActLeakyReLU 0.1)) (Some (l2 0.01));
    Dropout 0.3;

    Conv2D 64 (3, 3) None "same" None
      (Some (ActLeakyReLU 0.1)) (Some (l2 0.01));
    Conv2D 64 (3, 3) (Some (4, 4)) "same" None
      (Some (ActLeakyReLU 0.1)) (Some (l2 0.01));
    Dropout 0.4;

    Flatten;

    Dense 512 None (Some (l2 0.01));
    BatchNormalization;
    LeakyReLU 0.1;
    Dropout 0.3;

    Dense 256 None (Some (l2 0.01));
    BatchNormalization;
    LeakyReLU 0.1;
    Dropout 0.3;

    Dense classes (Some ActSoftmax) None
  ]) ;;
  emit (PrintSummary model) ;;;
  emit (Print "[INFO] Using My Better CNN model.") ;;;
  py_ret model.

Set Warnings "+inexact-float".

Definition is_conv (l : layer) : bool :=
  match l with Conv2D _ _ _ _ _ _ _ => true | _ => false end.

Definition is_dense (l : layer) : bool :=
  match l with Dense _ _ _ => true | _ => false end.

(** The layer's [kernel_regularizer], for the layers that have weights. *)
Definition layer_regularizer (l : layer) : option regularizer :=
  match l with
  | Conv2D _ _ _ _ _ _ r => r
  | Dense _ _ r => r
  | _ => None
  end.

Definition layer_activation (l : layer) : option activation_fn :=
  match l with
  | Conv2D _ _ _ _ _ a _ => a
  | Dense _ a _ => a
  | _ => None
  end.

(** A stand-in for Keras that accepts every list of layers. *)
Definition accepting_keras : Keras := {| keras_build _ := Ok tt |}.

(** ** Evaluator *)

(** [np.arange(0, n)], and [min()] / [max()] of an integer array. *)
Definition np_arange (n : Z) : list Z := seqZ 0 n.

Definition np_min (xs : list Z) : result Z :=
  match xs with
  | [] => Raise (ValueError
            "zero-size array to reduction operation minimum which has no identity")
  | x :: r => Ok (foldr Z.min x r)
  end.

Definition np_max (xs : list Z) : result Z :=
  match xs with
  | [] => Raise (ValueError
            "zero-size array to reduction operation maximum which has no identity")
  | x :: r => Ok (foldr Z.max x r)
  end.

(** [np.linspace(start, stop, num)]. *)
Definition np_linspace (start stop : float) (num : nat) : list float :=
  let div := (num - 1)%nat in
  let delta := (stop - start)%float in
  let step := (delta / float_of_nat div)%float in
  (λ i : nat,
     if Nat.ltb 1 num && Nat.eqb i div then stop
     else if Nat.ltb 0 div then
       if PrimFloat.eqb step 0 then (float_of_nat i / float_of_nat div * delta + start)%float
       else (float_of_nat i * step + start)%float
     else (float_of_nat i * delta + start)%float) <$> seq 0 num.

(** [l[:n]]. *)
Definition slice_to {A} (n : Z) (l : list A) : list A :=
  if n <? 0 then take (length l - Z.to_nat (- n)) l else take (Z.to_nat n) l.

(** [H.history]: the recorded curves by name. *)
Definition history_get (h : gmap string (list float)) (key : string)
    : result (list float) :=
  match h !! key with
  | Some v => Ok v
  | None => Raise (KeyError key)
  end.

(** [ax.plot(xs, ys, label=)]: the two must be of one length. *)
Definition ax_plot (axis : nat) (xs ys : list float) (label : string) : py unit :=
  if decide (length xs = length ys) then emit (Plt (AxPlot axis xs ys label))
  else raise (ValueError "x and y must have same first dimension").

(** What the evaluator takes from libraries without this file modelling it:
    Cohen's kappa, scipy's interpolating splines, and the writing of the
    figure file, which [plt.savefig] leaves to the file system: it raises
    when the file cannot be written at the path it is given. *)
Class EvalLibs (L : Type) : Type := {
  cohen_kappa_score : list L → list L → result float;
  make_interp_spline : list float → list float → result (list float → list float);
  savefig_write : string → result unit
}.

(** [plt.savefig(fname)]. *)
Definition plt_savefig {L : Type} {libs : EvalLibs L} (fname : string) : py unit :=
  emit (Plt (Savefig fname)) ;;;
  lift (savefig_write fname).

Definition nl : string := String "010"%char EmptyString.

Section Evaluator.
Context {L : Type} {label : Label L} {libs : EvalLibs L}.

Definition return_interpolated_plot (y : list float) (x X_ : list float)
    : result (list float) :=
  match make_interp_spline x y with
  | Ok X_Y_Spline => Ok (X_Y_Spline X_)
  | Raise e => Raise e
  end.

Definition evaluate_model (H : option (gmap string (list float)))
    (y_pred y_test : list L) (n_of_epochs : Z)
    (show_confusion_matrix interpolate : bool) (plot_file_name : string)
    : py unit :=
  emit (Print "[INFO] Evaluating model...") ;;;
  emit (Print ("Type and shape of y_test: <class 'numpy.ndarray'> | " +:+
               tuple_repr [length y_test])) ;;;
  emit (Print ("Type and shape of y_pred: <class 'numpy.ndarray'> | " +:+
               tuple_repr [length y_pred])) ;;;
  emit (Print (nl +:+ "Confusion matrix:")) ;;;
  cm <- lift (confusion_matrix y_test y_pred) ;;
  emit (PrintMatrix cm) ;;;
  conf_matrix <- lift (confusion_matrix y_test y_pred) ;;
  when show_confusion_matrix (
    emit (Plt (Subplots 1 1 (15, 15))) ;;;
    emit (Plt (Title "Confusion Matrix")) ;;;
    emit (Plt (XLabel "Predicted")) ;;;
    emit (Plt (YLabel "True")) ;;;
    emit (Plt (Grid false)) ;;;
    emit (Plt (ConfusionMatrixDisplay conf_matrix))) ;;;
  report <- lift (classification_report y_test y_pred (ZdValue 1)) ;;
  emit (PrintReport report) ;;;
  kappa <- lift (cohen_kappa_score y_test y_pred) ;;
  emit (Print ("Cohen's Kappa: " +:+ format_f 1 (kappa * 100)%float +:+ "%")) ;;;
  acc <- lift (accuracy_score y_test y_pred) ;;
  emit (Print ("Accuracy: " +:+ format_f 1 (acc * 100)%float +:+ "%")) ;;;
  match H with
  | Some history =>
      (* plots the training loss and accuracy *)
      let epochs_x := np_arange n_of_epochs in
      lo <- lift (np_min epochs_x) ;;
      hi <- lift (np_max epochs_x) ;;
      let X_ := np_linspace (float_of_Z lo) (float_of_Z hi) 250 in
      let epochs_f := float_of_Z <$> epochs_x in
      emit (Plt (StyleUse "ggplot")) ;;;
      emit (Plt (Subplots 2 1 (14, 16))) ;;;
      (* First subplot *)
      emit (Plt (Subplot 2 1 1)) ;;;
      (if interpolate then
         loss <- lift (history_get history "loss") ;;
         ys <- lift (return_interpolated_plot (slice_to n_of_epochs loss) epochs_f X_) ;;
         ax_plot 1 X_ ys "train_loss" ;;;
         val_loss <- lift (history_get history "val_loss") ;;
         ys <- lift (return_interpolated_plot (slice_to n_of_epochs val_loss) epochs_f X_) ;;
         ax_plot 1 X_ ys "val_loss"
       else
         loss <- lift (history_get history "loss") ;;
         ax_plot 1 epochs_f (slice_to n_of_epochs loss) "train_loss" ;;;
         val_loss <- lift (history_get history "val_loss") ;;
         ax_plot 1 epochs_f (slice_to n_of_epochs val_loss) "val_loss") ;;;
      emit (Plt (Title "Training and Validation Loss on Dataset")) ;;;
      emit (Plt (XLabel "Epoch #")) ;;;
      emit (Plt (YLabel "Loss")) ;;;
      emit (Plt (AxLegend 1 "lower left")) ;;;
      (* Second subplot *)
      emit (Plt (Subplot 2 1 2)) ;;;
      (if interpolate then
         a <- lift (history_get history "accuracy") ;;
         ys <- lift (return_interpolated_plot (slice_to n_of_epochs a) epochs_f X_) ;;
         ax_plot 2 X_ ys "train_acc" ;;;
         va <- lift (history_get history "val_accuracy") ;;
         ys <- lift (return_interpolated_plot (slice_to n_of_epochs va) epochs_f X_) ;;
         ax_plot 2 X_ ys "val_acc"
       else
         a <- lift (history_get history "accuracy") ;;
         ax_plot 2 epochs_f (slice_to n_of_epochs a) "train_acc" ;;;
         va <- lift (history_get history "val_accuracy") ;;
         ax_plot 2 epochs_f (slice_to n_of_epochs va) "val_acc") ;;;
      emit (Plt (Title "Training and Validation Accuracy on Dataset")) ;;;
      emit (Plt (XLabel "Epoch #")) ;;;
      emit (Plt (YLabel "Accuracy")) ;;;
      emit (Plt (AxLegend 2 "lower left")) ;;;
      acc <- lift (accuracy_score y_test y_pred) ;;
      emit (Print ("[INFO] Saving training/validation plot as a " +:+ plot_file_name +:+
                   "-" +:+ format_f 2 (acc * 100)%float +:+ "acc.png")) ;;;
      acc <- lift (accuracy_score y_test y_pred) ;;
      plt_savefig (plot_file_name +:+ "-" +:+ format_f 1 (acc * 100)%float +:+
                   "acc.png") ;;;
      emit (Plt Show)
  | None => py_ret tt
  end ;;;
  emit (Print "[INFO] Finished model evaluation").
End Evaluator.

(** A stand-in for the library calls: kappa is 0, the spline through any
    points is the zero curve, and every figure file can be written. *)
Definition flat_libs (L : Type) : EvalLibs L := {|
  cohen_kappa_score _ _ := Ok 0%float;
  make_interp_spline _ _ := Ok (λ X_, (λ _, 0%float) <$> X_);
  savefig_write _ := Ok tt
|}.

(** The reports a run printed, in order. *)
Definition report_of (e : event) : option (list report_row) :=
  match e with PrintReport r => Some r | _ => None end.

Definition printed_reports {A} (run : py A) : list (list report_row) :=
  omap report_of (output run).

(** The file names a run handed to [plt.savefig], in order. *)
Definition savefig_name (e : event) : option string :=
  match e with Plt (Savefig f) => Some f | _ => None end.

Definition saved_figures {A} (run : py A) : list string :=
  omap savefig_name (output run).

(** [emits sel n Q run]: every event of the run that [sel] selects
    satisfies [Q], and a run that returns has [n] such events. *)
Definition emits {A C} (sel : event → option C) (n : nat) (Q : C → Prop)
    (run : py A) : Prop :=
  Forall Q (omap sel (output run))
  ∧ (is_ok (outcome run) = true → length (omap sel (output run)) = n).

(** * Properties *)

(** ** Runs *)

Lemma outcome_bind {A B} (m : py A) (f : A → py B) :
  outcome (py_bind m f) =
  match outcome m with Ok x => outcome (f x) | Raise e => Raise e end.
Proof. destruct m as [out [x | e]]; simpl; [by destruct (f x) | done]. Qed.

Lemma output_bind {A B} (m : py A) (f : A → py B) :
  output (py_bind m f) =
  output m ++ match outcome m with Ok x => output (f x) | Raise _ => [] end.
Proof.
  destruct m as [out [x | e]]; simpl; [by destruct (f x) |].
  unfold output. simpl. by rewrite app_nil_r.
Qed.

Lemma outcome_lift {A} (r : result A) : outcome (lift r) = r.
Proof. done. Qed.

(** ** Dimension calculator *)

Lemma floordiv_nonzero a b : b ≠ 0 → floordiv a b = Ok (a / b).
Proof. intros Hb. unfold floordiv. by rewrite decide_False. Qed.

(** C2, as stated, fails: the claim ranges over every hop length, and with
    [hop_length = 0] (one second at 16 kHz, [n_fft = 2048], so that
    [sample_rate*duration >= n_fft]) the floor division raises
    [ZeroDivisionError]; no pair of dimensions is returned. *)
Lemma calculate_spectrogram_dimensions_zero_hop :
  16000 * 1 >= 2048 ∧
  calculate_spectrogram_dimensions 1 2048 0 16000 = Raise ZeroDivisionError ∧
  ¬ (∃ dims, calculate_spectrogram_dimensions 1 2048 0 16000 = Ok dims).
Proof.
  split; [lia |]. split; [reflexivity |].
  intros [dims Hd]. vm_compute in Hd. discriminate.
Qed.

(** C2, amended: for every sample rate, duration, FFT size and hop length
    with [hop_length <> 0] and [sample_rate*duration >= n_fft],
    [calculate_spectrogram_dimensions] returns exactly
    [(n_fft//2 + 1, 1 + (sample_rate*duration - n_fft)//hop_length)]; for
    16 kHz, one second, [n_fft = 2048] and hop 512 that is [(1025, 28)]; a
    zero hop length raises [ZeroDivisionError]. *)
Theorem calculate_spectrogram_dimensions_closed_form
    (sample_rate duration n_fft hop_length : Z) :
  hop_length ≠ 0 →
  sample_rate * duration >= n_fft →
  calculate_spectrogram_dimensions duration n_fft hop_length sample_rate =
    Ok (n_fft / 2 + 1, 1 + (sample_rate * duration - n_fft) / hop_length)
  ∧ calculate_spectrogram_dimensions 1 2048 512 16000 = Ok (1025, 28)
  ∧ calculate_spectrogram_dimensions duration n_fft 0 sample_rate =
      Raise ZeroDivisionError.
Proof.
  intros Hhop _. unfold calculate_spectrogram_dimensions.
  rewrite (floordiv_nonzero n_fft 2) by lia.
  rewrite (floordiv_nonzero _ hop_length) by done.
  split; [done |]. split; reflexivity.
Qed.

Lemma calculate_spectrogram_dimensions_closed_form_witness :
  calculate_spectrogram_dimensions 3 1024 256 8000 = Ok (513, 90).
Proof.
  refine (proj1 (calculate_spectrogram_dimensions_closed_form 8000 3 1024 256 _ _));
    lia.
Defined.

(** ** Batch feature pipeline *)

Section ExtractorFacts.
Context {librosa : Librosa}.

Ltac run_calls :=
  repeat first
    [ rewrite outcome_bind
    | rewrite outcome_lift
    | progress simpl
    | match goal with
      | |- context [match ?r with Ok _ => _ | Raise _ => _ end] => destruct r
      end ].

Lemma extract_stft_spectrogram_outcome y sr hop_length show_plt n_fft :
  outcome (extract_stft_spectrogram y sr hop_length show_plt n_fft) =
  outcome (extract_stft_spectrogram y sr hop_length false n_fft).
Proof.
  unfold extract_stft_spectrogram. destruct show_plt; [| done].
  run_calls; done.
Qed.

Lemma extract_mel_spectrogram_outcome y sr hop_length show_plt n_fft n_mels :
  outcome (extract_mel_spectrogram y sr hop_length show_plt n_fft n_mels) =
  outcome (extract_mel_spectrogram y sr hop_length false n_fft n_mels).
Proof.
  unfold extract_mel_spectrogram. destruct show_plt; [| done].
  run_calls; done.
Qed.

Lemma extract_MFCCs_outcome y sr n_fft hop_length n_mfcc show_plt :
  outcome (extract_MFCCs y sr n_fft hop_length n_mfcc show_plt) =
  outcome (extract_MFCCs y sr n_fft hop_length n_mfcc false).
Proof.
  unfold extract_MFCCs. destruct show_plt; [| done].
  run_calls; done.
Qed.

Section LoopFacts.
Variables (feature : string) (sr hop_length n_fft n_mels n_chroma n_mfcc : Z).
Variables (show_logs show_plt : bool) (features_length : nat).

#[local] Abbreviation extractor' := (extractor feature sr hop_length n_fft n_mels n_chroma n_mfcc).
#[local] Abbreviation loop_body' :=
  (loop_body feature sr hop_length n_fft n_mels n_chroma n_mfcc
     show_logs show_plt features_length).
#[local] Abbreviation for_loop' :=
  (for_loop feature sr hop_length n_fft n_mels n_chroma n_mfcc
     show_logs show_plt features_length).

Lemma extractor_known data s : extractor' data = Ok s → feature ∈ feature_tags.
Proof.
  unfold extractor, feature_tags.
  repeat case_decide; subst; set_solver.
Qed.

Lemma extractor_unknown data :
  feature ∉ feature_tags → extractor' data = Raise (UnboundLocalError "spect").
Proof.
  intros Hf. unfold extractor.
  repeat case_decide; subst; try done; exfalso; apply Hf; set_solver.
Qed.

(** One round of the loop ends as the single-item extractor does. *)
Lemma loop_body_outcome i data st :
  spect st = None ∨ feature ∈ feature_tags →
  outcome (loop_body' i data st) =
  match extractor' data with
  | Ok s => Ok {| spect := Some s; features := features st ++ [s] |}
  | Raise e => Raise e
  end.
Proof.
  intros Hst. unfold loop_body, dispatch, extractor.
  repeat case_decide; rewrite !outcome_bind.
  - rewrite extract_stft_spectrogram_outcome. unfold outcome.
    destruct (extract_stft_spectrogram _ _ _ _ _).2; simpl; [| done].
    by destruct (show_logs && _).
  - rewrite extract_mel_spectrogram_outcome. unfold outcome.
    destruct (extract_mel_spectrogram _ _ _ _ _ _).2; simpl; [| done].
    by destruct (show_logs && _).
  - rewrite extract_MFCCs_outcome. unfold outcome.
    destruct (extract_MFCCs _ _ _ _ _ _).2; simpl; [| done].
    by destruct (show_logs && _).
  - unfold outcome.
    destruct (extract_chroma_stft _ _ _ _ _).2; simpl; [| done].
    by destruct (show_logs && _).
  - unfold outcome.
    destruct (extract_spectral_contrast _ _ _ _).2; simpl; [| done].
    by destruct (show_logs && _).
  - destruct Hst as [-> | Hin]; [done |].
    exfalso. unfold feature_tags in Hin.
    repeat (apply elem_of_cons in Hin as [? | Hin]; [done |]).
    by apply elem_of_nil in Hin.
Qed.

(** The loop ends as the calls of the extractor in input order do, and
    appends their results to [features]. *)
Lemma for_loop_outcome samples : ∀ i st,
  spect st = None ∨ feature ∈ feature_tags →
  match collect (extractor' <$> samples) with
  | Ok fs => ∃ sp, outcome (for_loop' i samples st) =
                     Ok {| spect := sp; features := features st ++ fs |}
  | Raise e => outcome (for_loop' i samples st) = Raise e
  end.
Proof.
  induction samples as [| data rest IH]; intros i st Hst.
  - exists (spect st). simpl. rewrite app_nil_r. by destruct st.
  - rewrite fmap_cons. cbn [collect for_loop].
    rewrite outcome_bind, loop_body_outcome by done.
    destruct (extractor' data) as [s | e] eqn:Hs; [| done].
    assert (feature ∈ feature_tags) as Hknown by (by eapply extractor_known).
    specialize (IH (S i) {| spect := Some s; features := features st ++ [s] |}
                  (or_intror Hknown)).
    cbn [features] in IH.
    destruct (collect (extractor' <$> rest)) as [fs | e]; [| exact IH].
    destruct IH as [sp Hsp].
    exists sp. rewrite Hsp. by rewrite <- app_assoc.
Qed.
End LoopFacts.

(** How a call of [extract_features] ends does not depend on its flags:
    it ends as the extractor calls, stacked by [np.array], do. *)
Lemma extract_features_outcome samples feature sr hop_length n_fft n_mels
    n_chroma n_mfcc show_logs show_plt :
  outcome (extract_features samples feature sr hop_length n_fft n_mels
             n_chroma n_mfcc show_logs show_plt) =
  stacked feature sr hop_length n_fft n_mels n_chroma n_mfcc samples.
Proof.
  unfold extract_features, stacked. rewrite outcome_bind.
  pose proof (for_loop_outcome feature sr hop_length n_fft n_mels n_chroma n_mfcc
                show_logs show_plt (length samples) samples 0
                {| spect := None; features := [] |} (or_introl eq_refl)) as Hloop.
  destruct (collect _) as [fs | e]; [| by rewrite Hloop].
  destruct Hloop as [sp ->]. rewrite outcome_bind, outcome_lift.
  cbn [features app]. destruct (np_array fs); [| done].
  rewrite outcome_bind. by destruct show_logs.
Qed.
End ExtractorFacts.

Lemma collect_Forall {A B} (f : A → result B) (P : B → Prop) (l : list A) :
  Forall (λ w, ∃ m, f w = Ok m ∧ P m) l →
  ∃ outs, collect (f <$> l) = Ok outs
          ∧ Forall2 (λ w m, f w = Ok m) l outs
          ∧ Forall P outs.
Proof.
  induction 1 as [| w l (m & Hm & HP) _ (outs & Hc & H2 & HF)].
  - exists []. by repeat split.
  - exists (m :: outs). rewrite fmap_cons. cbn [collect]. rewrite Hm, Hc.
    repeat split; by constructor.
Qed.

Lemma np_array_same_shape (s : list nat) (outs : list ndarray) :
  outs ≠ [] → Forall (λ m, shape m = s) outs →
  np_array outs =
    Ok {| shape := length outs :: s; data := concat (data <$> outs) |}.
Proof.
  intros Hne Hall. destruct outs as [| x rest]; [done |].
  inversion Hall as [| ? ? Hx Hrest]; subst. unfold np_array.
  rewrite decide_True; [done |].
  eapply Forall_impl; [exact Hrest |]. by intros y ->.
Qed.

(** C1: for every non-empty collection of waveforms, a feature name outside
    the five tags makes [extract_features] raise (the first round of the loop
    reads [spect] before any branch has assigned it: [UnboundLocalError]);
    it does not return a feature array. *)
Theorem extract_features_unknown_tag_raises {librosa : Librosa}
    (samples : list ndarray) (feature : string)
    (sr hop_length n_fft n_mels n_chroma n_mfcc : Z) (show_logs show_plt : bool) :
  samples ≠ [] →
  feature ∉ ["Stft"; "Mel"; "MFCC"; "ChromaStft"; "SpectralContrast"] →
  outcome (extract_features samples feature sr hop_length n_fft n_mels
             n_chroma n_mfcc show_logs show_plt) =
    Raise (UnboundLocalError "spect").
Proof.
  intros Hne Htag. rewrite extract_features_outcome. unfold stacked.
  destruct samples as [| data rest]; [done |].
  rewrite fmap_cons. cbn [collect]. by rewrite extractor_unknown.
Qed.

Lemma extract_features_unknown_tag_raises_witness :
  outcome (extract_features (librosa := zeros_librosa)
             [silence 4096; silence 4096] "Wavelet" 16000 2048 2048 128 128 128
             true false) =
    Raise (UnboundLocalError "spect").
Proof.
  apply extract_features_unknown_tag_raises; [done |].
  rewrite !elem_of_cons, elem_of_nil. intros [? | [? | [? | [? | [? | []]]]]]; done.
Defined.

(** C4, as stated, fails. With no waveform at all the result is the
    one-dimensional empty array, of shape [(0,)]: nothing is left after the
    first dimension, while the extractor's output for a waveform has two
    dimensions. And waveforms of different lengths give feature matrices of
    different shapes, which [np.array] does not stack. *)
Lemma extract_features_not_always_stacked :
  (∃ arr m,
     outcome (extract_features (librosa := zeros_librosa)
                [] "Mel" 16000 2048 2048 128 128 128 false false) = Ok arr
     ∧ shape arr = [0%nat]
     ∧ extractor (librosa := zeros_librosa)
         "Mel" 16000 2048 2048 128 128 128 (silence 4096) = Ok m
     ∧ shape m = [128%nat; 3%nat]
     ∧ tail (shape arr) ≠ shape m)
  ∧ outcome (extract_features (librosa := zeros_librosa)
               [silence 2048; silence 4096] "Mel" 16000 2048 2048 128 128 128
               false false) =
      Raise (ValueError "inhomogeneous shape").
Proof.
  split.
  - eexists _, _. repeat split; [vm_compute; reflexivity .. | done].
  - vm_compute. reflexivity.
Qed.

(** C4, amended: for every non-empty collection of N waveforms and every
    recognized tag with a shared parameter set, if the matching extractor
    returns a matrix of one common shape [s] for each waveform, then
    [extract_features] returns an array of shape [(N,) + s] that holds the
    extractor's outputs for the waveforms, in input order. *)
Theorem extract_features_stacks {librosa : Librosa}
    (samples : list ndarray) (feature : string)
    (sr hop_length n_fft n_mels n_chroma n_mfcc : Z) (show_logs show_plt : bool)
    (s : list nat) :
  feature ∈ ["Stft"; "Mel"; "MFCC"; "ChromaStft"; "SpectralContrast"] →
  samples ≠ [] →
  Forall (λ w, ∃ m, extractor feature sr hop_length n_fft n_mels n_chroma n_mfcc w
                      = Ok m ∧ shape m = s) samples →
  ∃ arr outs,
    outcome (extract_features samples feature sr hop_length n_fft n_mels
               n_chroma n_mfcc show_logs show_plt) = Ok arr
    ∧ Forall2 (λ w m, extractor feature sr hop_length n_fft n_mels n_chroma n_mfcc w
                        = Ok m) samples outs
    ∧ shape arr = length samples :: s
    ∧ data arr = concat (data <$> outs).
Proof.
  intros _ Hne Hall.
  destruct (collect_Forall _ _ _ Hall) as (outs & Hc & H2 & Hs).
  exists {| shape := length outs :: s; data := concat (data <$> outs) |}, outs.
  rewrite extract_features_outcome. unfold stacked. rewrite Hc.
  assert (length samples = length outs) as Hlen by (by eapply Forall2_length).
  rewrite (np_array_same_shape s); [by rewrite Hlen | | done].
  intros ->. destruct samples; [done | discriminate].
Qed.

Lemma extract_features_stacks_witness :
  ∃ arr outs,
    outcome (extract_features (librosa := zeros_librosa)
               [silence 4096; silence 4100; silence 4200] "Mel"
               16000 2048 2048 128 128 128 true true) = Ok arr
    ∧ Forall2 (λ w m, extractor (librosa := zeros_librosa)
                        "Mel" 16000 2048 2048 128 128 128 w = Ok m)
        [silence 4096; silence 4100; silence 4200] outs
    ∧ shape arr = [3%nat; 128%nat; 3%nat]
    ∧ data arr = concat (data <$> outs).
Proof.
  apply (extract_features_stacks (librosa := zeros_librosa)
           [silence 4096; silence 4100; silence 4200] "Mel"
           16000 2048 2048 128 128 128 true true [128%nat; 3%nat]).
  - rewrite !elem_of_cons. auto.
  - done.
  - repeat constructor; eexists; (split; [vm_compute; reflexivity | reflexivity]).
Defined.


(** C10: for the empty collection [extract_features] returns the empty
    array, of shape [(0,)], without raising, for every feature name,
    recognized or not, and every parameter set and flags. *)
Theorem extract_features_empty {librosa : Librosa} (feature : string)
    (sr hop_length n_fft n_mels n_chroma n_mfcc : Z) (show_logs show_plt : bool) :
  outcome (extract_features [] feature sr hop_length n_fft n_mels
             n_chroma n_mfcc show_logs show_plt) =
    Ok {| shape := [0%nat]; data := [] |}.
Proof. by rewrite extract_features_outcome. Qed.

(** ** Label encoder *)

Lemma rows_of_rows (k : nat) (rs : list (list float)) :
  Forall (λ r, length r = k) rs → rows (of_rows k rs) = rs.
Proof.
  unfold rows, of_rows. simpl.
  induction 1 as [| r rs Hr _ IH]; [done |].
  simpl. rewrite take_app_length', drop_app_length' by done. by rewrite IH.
Qed.

Lemma Forall2_fmap_self {A B} (P : A → B → Prop) (f : A → B) (l : list A) :
  (∀ x, P x (f x)) → Forall2 P l (f <$> l).
Proof. intros HP. induction l; by constructor. Qed.

Lemma filter_none {A} (P : A → Prop) `{∀ x, Decision (P x)} (l : list A) :
  Forall (λ x, ¬ P x) l → filter P l = [].
Proof.
  induction 1 as [| x l Hx _ IH]; [done |].
  by rewrite filter_cons_False.
Qed.

Section LabelFacts.
Context {L : Type} {label : Label L}.

#[local] Abbreviation lt := (strict label_le).

Lemma drop_repeats_elem (x : L) (l : list L) : ∀ p,
  x ∈ p :: drop_repeats p l ↔ x ∈ p :: l.
Proof.
  induction l as [| y l IH]; intros p; [done |]. simpl.
  case_decide as Hy.
  - subst y. rewrite IH. rewrite !elem_of_cons. tauto.
  - rewrite (elem_of_cons (_ :: _)), IH, !elem_of_cons. tauto.
Qed.

Lemma drop_repeats_sorted (l : list L) : ∀ p,
  Sorted label_le (p :: l) → Sorted lt (p :: drop_repeats p l).
Proof.
  induction l as [| y l IH]; intros p Hs; simpl.
  - by repeat constructor.
  - apply Sorted_inv in Hs as [Hs Hhd]. apply HdRel_inv in Hhd.
    case_decide as Hy.
    + subst y. by apply IH.
    + constructor; [by apply IH |]. constructor. split; [done |].
      intros Hyp. apply Hy. by apply (anti_symm label_le).
Qed.

Lemma np_unique_elem (l : list L) (x : L) : x ∈ np_unique l ↔ x ∈ l.
Proof.
  rewrite <- (merge_sort_Permutation label_le l) at 2. unfold np_unique.
  destruct (merge_sort label_le l) as [| p s]; [done |].
  apply drop_repeats_elem.
Qed.

Lemma np_unique_sorted (l : list L) : StronglySorted lt (np_unique l).
Proof.
  apply Sorted_StronglySorted; [apply _ |]. unfold np_unique.
  pose proof (Sorted_merge_sort label_le l) as Hs.
  destruct (merge_sort label_le l) as [| p s]; [constructor |].
  by apply drop_repeats_sorted.
Qed.

Lemma strictly_sorted_NoDup (cs : list L) : StronglySorted lt cs → NoDup cs.
Proof.
  induction 1 as [| c cs _ IH Hall]; constructor; [| done].
  intros Hin. rewrite Forall_forall in Hall.
  by apply (irreflexivity lt c), Hall.
Qed.

Lemma np_unique_NoDup (l : list L) : NoDup (np_unique l).
Proof. apply strictly_sorted_NoDup, np_unique_sorted. Qed.

Lemma np_unique_distinct (l : list L) : np_unique l ≡ₚ remove_dups l.
Proof.
  apply NoDup_Permutation; [apply np_unique_NoDup | apply NoDup_remove_dups |].
  intros x. by rewrite np_unique_elem, elem_of_remove_dups.
Qed.

Lemma np_unique_nonempty (l : list L) : l ≠ [] → np_unique l ≠ [].
Proof.
  destruct l as [| x l]; [done |]. intros _ Hnil.
  assert (x ∈ np_unique (x :: l)) as Hx by (apply np_unique_elem; left).
  rewrite Hnil in Hx. by apply elem_of_nil in Hx.
Qed.

(** In a strictly increasing list, the entries below the one at index [i]
    are the [i] entries before it. *)
Lemma strictly_sorted_rank (cs : list L) : ∀ i x,
  StronglySorted lt cs → cs !! i = Some x →
  length (filter (λ y, lt y x) cs) = i.
Proof.
  induction cs as [| c cs IH]; intros i x Hs Hi; [done |].
  apply StronglySorted_inv in Hs as [Hs Hall].
  rewrite Forall_forall in Hall.
  destruct i as [| i]; simpl in Hi.
  - injection Hi as ->. rewrite filter_cons_False by apply (irreflexivity lt).
    rewrite filter_none; [done |].
    apply Forall_forall. intros y Hy [Hyx Hxy]. by destruct (Hall y Hy).
  - assert (lt c x) as Hcx by (apply Hall; by eapply list_elem_of_lookup_2).
    rewrite filter_cons_True by done. simpl. f_equal. by apply IH.
Qed.

Lemma onehot_row_length (cs : list L) (x : L) : length (onehot_row cs x) = length cs.
Proof. unfold onehot_row. by rewrite length_fmap. Qed.

(** The row written for a label holds a 1 in the label's column and 0
    elsewhere. *)
Lemma onehot_row_insert (cs : list L) (x : L) (i : nat) :
  NoDup cs → cs !! i = Some x →
  onehot_row cs x = <[i := 1%float]> (replicate (length cs) 0%float).
Proof.
  intros Hnd Hi. apply list_eq. intros j. unfold onehot_row.
  rewrite list_lookup_fmap.
  destruct (decide (i = j)) as [<- | Hij].
  - rewrite Hi, list_lookup_insert_eq.
    + simpl. by rewrite decide_True.
    + rewrite length_replicate. by eapply lookup_lt_Some.
  - rewrite list_lookup_insert_ne by done.
    destruct (cs !! j) as [c |] eqn:Hj; simpl.
    + rewrite decide_False.
      * symmetry. apply lookup_replicate_2. by eapply lookup_lt_Some.
      * intros ->. apply Hij. by eapply NoDup_lookup.
    + symmetry. apply lookup_replicate_None. by apply lookup_ge_None.
Qed.

Lemma decode_row_onehot (cs : list L) (x : L) :
  NoDup cs → x ∈ cs → decode_row (map_seq 0 cs) (onehot_row cs x) = Some x.
Proof.
  intros Hnd Hx. apply list_elem_of_lookup in Hx as [i Hi].
  unfold decode_row.
  assert (list_find (λ v, PrimFloat.eqb v 1 = true) (onehot_row cs x)
          = Some (i, 1%float)) as ->.
  { apply list_find_Some. unfold onehot_row. repeat split.
    - rewrite list_lookup_fmap, Hi. simpl. by rewrite decide_True.
    - intros j y Hj Hlt.
      rewrite list_lookup_fmap in Hj.
      destruct (cs !! j) as [c |] eqn:Hc; [| done].
      simpl in Hj. rewrite decide_False in Hj.
      + by injection Hj as <-.
      + intros ->. assert (i = j) by (by eapply NoDup_lookup). lia. }
  simpl. by rewrite lookup_map_seq_0.
Qed.
End LabelFacts.

Section OnehotEncode.
Context {L : Type} {label : Label L} {numpy : Numpy L}.

#[local] Abbreviation lt := (strict label_le).

Lemma length_np_array_reshape (labels : list L) :
  length (np_array_reshape labels) = length labels.
Proof. unfold np_array_reshape. by rewrite length_fmap. Qed.

(** What [onehot_encode] returns for at least one label: the rows written
    for the labels as they are stored, over the sorted distinct stored
    labels, and the enumeration of those. *)
Lemma onehot_encode_returns (labels : list L) :
  labels ≠ [] →
  let column := np_array_reshape labels in
  outcome (onehot_encode labels) =
    Ok (of_rows (length (np_unique column)) (onehot_row (np_unique column) <$> column),
        map_seq 0 (np_unique column)).
Proof.
  intros Hne column. unfold column, onehot_encode, np_array_reshape.
  destruct labels as [| x l]; [done |].
  by rewrite !outcome_bind.
Qed.

Lemma onehot_encode_no_labels :
  outcome (onehot_encode (@nil L)) =
    Raise (ValueError
      "Found array with 0 sample(s) (shape=(0, 1)) while a minimum of 1 is required.").
Proof. reflexivity. Qed.

Lemma onehot_rows (labels : list L) :
  rows (of_rows (length (np_unique labels)) (onehot_row (np_unique labels) <$> labels))
  = onehot_row (np_unique labels) <$> labels.
Proof.
  apply rows_of_rows, Forall_fmap, Forall_forall.
  intros x _. apply onehot_row_length.
Qed.

(** The round trip in terms of the labels as NumPy stores them: the matrix
    has one row per label and one column per distinct stored label, and
    decoding gives back the stored labels. *)
Lemma onehot_encode_decodes_column (labels : list L) :
  labels ≠ [] →
  ∃ (m : ndarray) (mapping : gmap nat L),
    let column := np_array_reshape labels in
    let K := length (remove_dups column) in
    outcome (onehot_encode labels) = Ok (m, mapping)
    ∧ shape m = [length labels; K]
    ∧ length (rows m) = length labels
    ∧ Forall (λ row, ∃ i, (i < K)%nat
                          ∧ row = <[i := 1%float]> (replicate K 0%float)) (rows m)
    ∧ (∀ i, is_Some (mapping !! i) ↔ (i < K)%nat)
    ∧ decode mapping m = Some column.
Proof.
  intros Hne. eexists _, _. intros column K.
  split; [by apply onehot_encode_returns |]. fold column.
  assert (length (np_unique column) = K) as HK.
  { unfold K. apply Permutation_length, np_unique_distinct. }
  assert (length column = length labels) as Hlen by apply length_np_array_reshape.
  pose proof (np_unique_NoDup column) as Hnd.
  rewrite onehot_rows. repeat split.
  - unfold of_rows. simpl. by rewrite length_fmap, HK, Hlen.
  - by rewrite length_fmap.
  - apply Forall_fmap, Forall_forall. intros x Hx. simpl.
    apply np_unique_elem, list_elem_of_lookup in Hx as [i Hi].
    exists i. split.
    + rewrite <- HK. by eapply lookup_lt_Some.
    + rewrite <- HK. by apply onehot_row_insert.
  - rewrite lookup_map_seq_0, <- HK. apply lookup_lt_is_Some_1.
  - rewrite lookup_map_seq_0, <- HK. apply lookup_lt_is_Some_2.
  - unfold decode. rewrite onehot_rows.
    apply mapM_fmap_Forall_Some, Forall_forall. intros x Hx.
    apply decode_row_onehot; [done | by apply np_unique_elem].
Qed.

(** C3, amended: for every non-empty ordered collection of N labels
    (repeats allowed) that [np.array] stores unchanged, [onehot_encode]
    returns an N-by-K matrix and an index-to-label mapping on the indices
    below K, where K is the number of distinct input labels; every row holds
    a single 1 among zeros; and decoding each row through the mapping (the
    label at the column holding the 1) gives back the original label
    sequence. *)
Theorem onehot_encode_roundtrip (labels : list L) :
  labels ≠ [] →
  np_array_reshape labels = labels →
  ∃ (m : ndarray) (mapping : gmap nat L),
    let K := length (remove_dups labels) in
    outcome (onehot_encode labels) = Ok (m, mapping)
    ∧ shape m = [length labels; K]
    ∧ length (rows m) = length labels
    ∧ Forall (λ row, ∃ i, (i < K)%nat
                          ∧ row = <[i := 1%float]> (replicate K 0%float)) (rows m)
    ∧ (∀ i, is_Some (mapping !! i) ↔ (i < K)%nat)
    ∧ decode mapping m = Some labels.
Proof.
  intros Hne Hstored.
  destruct (onehot_encode_decodes_column labels Hne) as (m & mapping & Hrun).
  exists m, mapping. cbv zeta in Hrun. by rewrite Hstored in Hrun.
Qed.

(** C6, amended: for every label collection for which [onehot_encode]
    returns, the returned mapping sends column index [i] to the i-th
    smallest distinct label as [np.array] stores the labels (the stored
    label below which exactly [i] distinct stored labels lie), and column
    [i] of the matrix is the column of that label: a row holds 1 there when
    its stored label is that one, and 0 otherwise. *)
Theorem onehot_encode_columns_sorted (labels : list L) (m : ndarray)
    (mapping : gmap nat L) :
  outcome (onehot_encode labels) = Ok (m, mapping) →
  let column := np_array_reshape labels in
  (∀ i x, mapping !! i = Some x ↔
          x ∈ column ∧ length (filter (λ y, lt y x) (remove_dups column)) = i)
  ∧ (∀ r lab row i x,
       column !! r = Some lab → rows m !! r = Some row → mapping !! i = Some x →
       row !! i = Some (if decide (x = lab) then 1%float else 0%float)).
Proof.
  intros Hrun column.
  destruct (decide (labels = [])) as [-> | Hne].
  { by rewrite onehot_encode_no_labels in Hrun. }
  rewrite onehot_encode_returns in Hrun by done. fold column in Hrun.
  injection Hrun as <- <-.
  pose proof (np_unique_sorted column) as Hs.
  assert (∀ i x, np_unique column !! i = Some x →
            length (filter (λ y, lt y x) (remove_dups column)) = i) as Hrank.
  { intros i x Hi. rewrite <- (strictly_sorted_rank (np_unique column) i x) by done.
    apply Permutation_length. symmetry.
    apply filter_Permutation, np_unique_distinct. }
  split.
  - intros i x. rewrite lookup_map_seq_0. split.
    + intros Hi. split; [| by apply Hrank].
      by eapply np_unique_elem, list_elem_of_lookup_2.
    + intros [Hx Hcount].
      apply np_unique_elem, list_elem_of_lookup in Hx as [j Hj].
      by rewrite <- Hcount, (Hrank j x Hj).
  - intros r lab row i x Hlab Hrow Hi.
    rewrite lookup_map_seq_0 in Hi.
    rewrite onehot_rows, list_lookup_fmap, Hlab in Hrow. injection Hrow as <-.
    unfold onehot_row. by rewrite list_lookup_fmap, Hi.
Qed.
End OnehotEncode.

(** Labels that are an array already are stored unchanged. *)
Lemma ndarray_labels_stored {L : Type} {label : Label L} (labels : list L) :
  np_array_reshape (numpy := ndarray_labels L) labels = labels.
Proof. apply list_fmap_id. Qed.

(** [np.array] stores a list of integers that all fit [int64] unchanged. *)
Lemma python_ints_int64 (labels : list Z) :
  Forall (λ z, - 2 ^ 63 ≤ z < 2 ^ 63) labels →
  np_array_reshape (numpy := python_ints) labels = labels.
Proof.
  intros Hall. unfold np_array_reshape. cbn [result_type astype python_ints].
  destruct (int_result_type labels) eqn:Hd; try apply list_fmap_id.
  unfold int_result_type in Hd. repeat case_decide; try done.
  - exfalso.
    match goal with
    | H : Exists (λ z, 2 ^ 63 ≤ z) labels |- _ =>
        apply Exists_exists in H as (z & Hz & Hbig)
    end.
    rewrite Forall_forall in Hall. specialize (Hall z Hz). lia.
  - by subst labels.
Qed.

(** C3, as stated, fails for the collection of no labels: fitting the
    encoder on zero samples raises [ValueError], so no matrix and no mapping
    are returned. *)
Lemma onehot_encode_empty_raises :
  (∃ msg, outcome (onehot_encode (label := Z_label) (numpy := python_ints) [])
          = Raise (ValueError msg))
  ∧ ¬ (∃ m mapping, outcome (onehot_encode (label := Z_label) (numpy := python_ints) [])
                    = Ok (m, mapping)).
Proof.
  split; [by eexists |]. intros (m & mapping & Hrun). discriminate.
Qed.

(** C6, as stated, fails for labels that [np.array] does not store as they
    are. The integers 2^63 - 1 and 2^63 are two distinct labels, the first
    an [int64] and the second a [uint64]; the array holds both as the double
    2^63, so the matrix has one column, the mapping sends index 0 to 2^63
    and has no index 1, and the smallest label is in no column. *)
Lemma onehot_encode_merges_labels :
  let labels := [2 ^ 63 - 1; 2 ^ 63] in
  np_unique (label := Z_label) labels = labels
  ∧ ∃ m mapping,
      outcome (onehot_encode (label := Z_label) (numpy := python_ints) labels)
        = Ok (m, mapping)
      ∧ shape m = [2; 1]%nat
      ∧ mapping !! 0%nat = Some (2 ^ 63)
      ∧ mapping !! 1%nat = None
      ∧ decode mapping m = Some [2 ^ 63; 2 ^ 63].
Proof.
  split; [vm_compute; reflexivity |].
  eexists _, _. split; [vm_compute; reflexivity |].
  repeat split; vm_compute; reflexivity.
Qed.

Lemma onehot_encode_roundtrip_witness :
  ∃ (m : ndarray) (mapping : gmap nat Z),
    outcome (onehot_encode (label := Z_label) (numpy := python_ints) [7; 3; 7; 5; 3])
      = Ok (m, mapping)
    ∧ shape m = [5%nat; 3%nat]
    ∧ length (rows m) = 5%nat
    ∧ Forall (λ row, ∃ i, (i < 3)%nat
                          ∧ row = <[i := 1%float]> (replicate 3 0%float)) (rows m)
    ∧ (∀ i, is_Some (mapping !! i) ↔ (i < 3)%nat)
    ∧ decode mapping m = Some [7; 3; 7; 5; 3].
Proof.
  apply (onehot_encode_roundtrip (label := Z_label) (numpy := python_ints)
           [7; 3; 7; 5; 3]); [done | vm_compute; reflexivity].
Defined.

Lemma onehot_encode_columns_sorted_witness :
  (∀ i x, (map_seq 0 [3; 5; 7] : gmap nat Z) !! i = Some x ↔
          x ∈ [7; 3; 7; 5; 3]
          ∧ length (filter (λ y, strict Z.le y x) (remove_dups [7; 3; 7; 5; 3])) = i)
  ∧ (∀ r lab row i x,
       [7; 3; 7; 5; 3] !! r = Some lab →
       [[0; 0; 1]; [1; 0; 0]; [0; 0; 1]; [0; 1; 0]; [1; 0; 0]]%float !! r = Some row →
       (map_seq 0 [3; 5; 7] : gmap nat Z) !! i = Some x →
       row !! i = Some (if decide (x = lab) then 1%float else 0%float)).
Proof.
  apply (onehot_encode_columns_sorted (label := Z_label) (numpy := python_ints)
           [7; 3; 7; 5; 3]
           (of_rows 3 [[0; 0; 1]; [1; 0; 0]; [0; 0; 1]; [0; 1; 0]; [1; 0; 0]]%float)
           (map_seq 0 [3; 5; 7])).
  vm_compute. reflexivity.
Defined.

(** ** Model builder *)

Set Warnings "-inexact-float".

(** C5, as stated, fails: the last layer of the model, the softmax output
    [Dense(classes)], is a dense layer and is built without a
    [kernel_regularizer]. *)
Lemma create_better_base_cnn_model_output_unregularized :
  ∃ model l,
    outcome (create_better_base_cnn_model (keras := accepting_keras) 128 8 1 50)
      = Ok model
    ∧ l ∈ model
    ∧ is_dense l = true
    ∧ layer_regularizer l = None.
Proof.
  eexists _, (Dense 50 (Some ActSoftmax) None).
  split; [reflexivity |]. split; [| done].
  rewrite !elem_of_cons. tauto.
Qed.

(** C5, amended: in the model returned by [create_better_base_cnn_model],
    for any feature width, feature height, channels and classes, every
    convolutional layer and every dense layer before the output layer
    carries the L2 weight regularizer [l2(0.01)]; the output layer, the
    softmax [Dense(classes)], carries no regularizer. *)
Theorem create_better_base_cnn_model_regularized {keras : Keras}
    (feature_width feature_height channels classes : Z) (model : list layer) :
  outcome (create_better_base_cnn_model feature_width feature_height channels classes)
    = Ok model →
  ∃ hidden,
    model = hidden ++ [Dense classes (Some ActSoftmax) None]
    ∧ Forall (λ l, is_conv l || is_dense l = true →
                   layer_regularizer l = Some (l2 0.01)) hidden
    ∧ length (filter (λ l, is_conv l = true) hidden) = 4%nat
    ∧ length (filter (λ l, is_dense l = true) hidden) = 2%nat.
Proof.
  unfold create_better_base_cnn_model, Sequential.
  rewrite outcome_bind, outcome_lift.
  destruct (keras_build _); [| done].
  rewrite !outcome_bind. cbn [emit py_ret outcome snd]. intros [= <-].
  match goal with |- ∃ hidden, ?layers = _ ∧ _ => exists (take 15 layers) end.
  split; [reflexivity |].
  split; [| done]. cbn [take]. repeat constructor; simpl; done.
Qed.

Lemma create_better_base_cnn_model_regularized_witness :
  ∃ hidden,
    [ Conv2D 64 (3, 3) None "same" (Some (128, 8, 1))
        (Some (ActLeakyReLU 0.1)) (Some (l2 0.01));
      Conv2D 64 (3, 3) (Some (4, 4)) "same" None
        (Some (ActLeakyReLU 0.1)) (Some (l2 0.01));
      Dropout 0.3;
      Conv2D 64 (3, 3) None "same" None
        (Some (ActLeakyReLU 0.1)) (Some (l2 0.01));
      Conv2D 64 (3, 3) (Some (4, 4)) "same" None
        (Some (ActLeakyReLU 0.1)) (Some (l2 0.01));
      Dropout 0.4;
      Flatten;
      Dense 512 None (Some (l2 0.01));
      BatchNormalization;
      LeakyReLU 0.1;
      Dropout 0.3;
      Dense 256 None (Some (l2 0.01));
      BatchNormalization;
      LeakyReLU 0.1;
      Dropout 0.3;
      Dense 50 (Some ActSoftmax) None ]
    = hidden ++ [Dense 50 (Some ActSoftmax) None]
    ∧ Forall (λ l, is_conv l || is_dense l = true →
                   layer_regularizer l = Some (l2 0.01)) hidden
    ∧ length (filter (λ l, is_conv l = true) hidden) = 4%nat
    ∧ length (filter (λ l, is_dense l = true) hidden) = 2%nat.
Proof.
  apply (create_better_base_cnn_model_regularized (keras := accepting_keras) 128 8 1 50).
  reflexivity.
Defined.

Set Warnings "+inexact-float".

(** ** Evaluator *)

Section Emits.
Context {C : Type} (sel : event → option C) (Q : C → Prop).

Lemma emits_bind {A B} (a b : nat) (m : py A) (f : A → py B) :
  emits sel a Q m →
  (∀ x, outcome m = Ok x → emits sel b Q (f x)) →
  emits sel (a + b) Q (py_bind m f).
Proof.
  intros [Hm Hlen] Hf. unfold emits.
  rewrite output_bind, outcome_bind, omap_app, length_app.
  destruct (outcome m) as [x | e] eqn:Hx.
  - destruct (Hf x eq_refl) as [Hfx Hflen]. split.
    + by apply Forall_app.
    + intros Hok. by rewrite Hlen, Hflen.
  - split; [| done]. rewrite app_nil_r. done.
Qed.

(** A step that emits nothing selected, then the rest. *)
Lemma emits_step {A B} (n : nat) (m : py A) (f : A → py B) :
  emits sel 0 Q m →
  (∀ x, outcome m = Ok x → emits sel n Q (f x)) →
  emits sel n Q (py_bind m f).
Proof. apply (emits_bind 0 n). Qed.

(** The step that emits, then a rest that emits nothing selected. *)
Lemma emits_last {A B} (n : nat) (m : py A) (f : A → py B) :
  emits sel n Q m →
  (∀ x, outcome m = Ok x → emits sel 0 Q (f x)) →
  emits sel n Q (py_bind m f).
Proof. intros Hm Hf. rewrite <- (Nat.add_0_r n). by apply emits_bind. Qed.

Lemma emits_emit_other (e : event) : sel e = None → emits sel 0 Q (emit e).
Proof. intros He. unfold emits. simpl. by rewrite He. Qed.

Lemma emits_emit (e : event) (c : C) : sel e = Some c → Q c → emits sel 1 Q (emit e).
Proof. intros He Hc. unfold emits. simpl. rewrite He. split; [by repeat constructor | done]. Qed.

Lemma emits_lift {A} (r : result A) : emits sel 0 Q (lift r).
Proof. by split. Qed.

Lemma emits_ret {A} (x : A) : emits sel 0 Q (py_ret x).
Proof. by split. Qed.

Lemma emits_raise {A} (n : nat) (e : exn) : emits sel n Q (raise (A := A) e).
Proof. by split. Qed.

Lemma emits_ax_plot (axis : nat) (xs ys : list float) (name : string) :
  sel (Plt (AxPlot axis xs ys name)) = None → emits sel 0 Q (ax_plot axis xs ys name).
Proof.
  intros He. unfold ax_plot. case_decide; [by apply emits_emit_other | apply emits_raise].
Qed.
End Emits.

(** Discharges [emits sel 0 Q] for a block that emits nothing selected. *)
Ltac quiet :=
  repeat first
    [ progress unfold plt_savefig
    | apply emits_lift
    | apply emits_ret
    | apply emits_raise
    | apply emits_emit_other; reflexivity
    | apply emits_ax_plot; reflexivity
    | apply emits_step; [| intros ? ?]
    | match goal with
      | |- emits _ _ _ (when ?b _) => destruct b; unfold when
      | |- emits _ _ _ (if ?b then _ else _) => destruct b
      end ].

Section EvaluatorFacts.
Context {L : Type} {label : Label L} {libs : EvalLibs L}.

(** A run of [evaluate_model] with a history saves no figure but one named
    by the base name and the accuracy, and a run that returns has saved
    it. *)
Lemma evaluate_model_saved_figures (history : gmap string (list float))
    (y_pred y_test : list L) (n_of_epochs : Z)
    (show_confusion_matrix interpolate : bool) (plot_file_name : string) :
  emits savefig_name 1
    (λ f, ∃ acc, accuracy_score y_test y_pred = Ok acc
                 ∧ f = plot_file_name +:+ "-" +:+
                       format_f 1 (acc * 100)%float +:+ "acc.png")
    (evaluate_model (Some history) y_pred y_test n_of_epochs
       show_confusion_matrix interpolate plot_file_name).
Proof.
  unfold evaluate_model.
  repeat (apply emits_step; [solve [quiet] | intros ? ?]).
  apply emits_last; [| intros; solve [quiet]].
  repeat (apply emits_step; [solve [quiet] | intros ? ?]).
  apply emits_last; [| intros; solve [quiet]].
  unfold plt_savefig. apply emits_last; [| intros; solve [quiet]].
  eapply emits_emit; [reflexivity |]. by eexists.
Qed.

(** The selected events of a run reach those of a later step when the
    steps before it return. *)
Lemma selected_here {A B C} (sel : event → option C) (c : C) (m : py A) (f : A → py B) :
  c ∈ omap sel (output m) → c ∈ omap sel (output (py_bind m f)).
Proof. intros Hc. rewrite output_bind, omap_app. apply elem_of_app. by left. Qed.

Lemma selected_later {A B C} (sel : event → option C) (c : C) (m : py A) (f : A → py B) x :
  outcome m = Ok x → c ∈ omap sel (output (f x)) → c ∈ omap sel (output (py_bind m f)).
Proof.
  intros Hx Hc. rewrite output_bind, omap_app, Hx. apply elem_of_app. by right.
Qed.

Lemma count_label_absent (c : L) (y : list L) : c ∉ y → count_label c y = 0%nat.
Proof.
  intros Hc. unfold count_label. rewrite filter_none; [done |].
  apply Forall_forall. by intros x Hx ->.
Qed.

Lemma unique_labels_elem (y_true y_pred : list L) (c : L) :
  c ∈ unique_labels y_true y_pred ↔ c ∈ y_true ∨ c ∈ y_pred.
Proof. unfold unique_labels. by rewrite np_unique_elem, elem_of_app. Qed.

Lemma classification_report_returns (y_true y_pred : list L) (zd : zero_division) :
  length y_true = length y_pred → y_true ≠ [] →
  classification_report y_true y_pred zd =
    Ok (report_line y_true y_pred zd <$> unique_labels y_true y_pred).
Proof.
  intros Hlen Hne. unfold classification_report, check_consistent_length.
  rewrite decide_True by done.
  destruct (unique_labels y_true y_pred) as [| c cs] eqn:Hu; [| done].
  exfalso. apply (np_unique_nonempty (y_true ++ y_pred)); [| done].
  destruct y_true; [done | discriminate].
Qed.

(** In a report made with [zero_division=1], the precision of a class that
    is never predicted and the recall of a class that never occurs are 1. *)
Lemma classification_report_zero_division (y_true y_pred : list L)
    (report : list report_row) :
  classification_report y_true y_pred (ZdValue 1) = Ok report →
  Forall2 (λ c row, class_name row = label_str c
                    ∧ (c ∉ y_pred → precision row = 1%float)
                    ∧ (c ∉ y_true → recall row = 1%float)
                    ∧ support row = count_label c y_true)
    (unique_labels y_true y_pred) report.
Proof.
  unfold classification_report.
  destruct (check_consistent_length y_true y_pred); [| done].
  destruct (unique_labels y_true y_pred) as [| c0 cs]; [done |].
  intros [= <-].
  apply (Forall2_fmap_self _ (report_line y_true y_pred (ZdValue 1)) (c0 :: cs)).
  intros c. unfold report_line, prf_divide. simpl. repeat split.
  - intros Hc. by rewrite count_label_absent, decide_True.
  - intros Hc. by rewrite count_label_absent, decide_True.
Qed.

(** Every report [evaluate_model] prints is the one made with
    [zero_division=1]. *)
Lemma evaluate_model_printed_reports (H : option (gmap string (list float)))
    (y_pred y_test : list L) (n_of_epochs : Z)
    (show_confusion_matrix interpolate : bool) (plot_file_name : string) :
  emits report_of 1
    (λ report, classification_report y_test y_pred (ZdValue 1) = Ok report)
    (evaluate_model H y_pred y_test n_of_epochs
       show_confusion_matrix interpolate plot_file_name).
Proof.
  unfold evaluate_model.
  repeat (apply emits_step; [solve [quiet] | intros ? ?]).
  apply emits_last.
  - eapply emits_emit; [reflexivity | done].
  - intros. repeat (apply emits_step; [solve [quiet] | intros ? ?]).
    destruct H; quiet.
Qed.

(** With as many predictions as true labels, and at least one,
    [evaluate_model] gets to print its report. *)
Lemma evaluate_model_prints_report (H : option (gmap string (list float)))
    (y_pred y_test : list L) (n_of_epochs : Z)
    (show_confusion_matrix interpolate : bool) (plot_file_name : string) :
  length y_test = length y_pred → y_test ≠ [] →
  ∃ report,
    report ∈ printed_reports
               (evaluate_model H y_pred y_test n_of_epochs
                  show_confusion_matrix interpolate plot_file_name).
Proof.
  intros Hlen Hne.
  exists (report_line y_test y_pred (ZdValue 1) <$> unique_labels y_test y_pred).
  assert (∃ cm, confusion_matrix y_test y_pred = Ok cm) as [cm Hcm].
  { unfold confusion_matrix, check_consistent_length.
    rewrite decide_True by done. by eexists. }
  pose proof (classification_report_returns y_test y_pred (ZdValue 1) Hlen Hne) as Hrep.
  unfold evaluate_model, printed_reports.
  do 4 (eapply selected_later; [reflexivity |]).
  eapply selected_later; [exact Hcm |].
  eapply selected_later; [reflexivity |].
  eapply selected_later; [exact Hcm |].
  eapply (selected_later _ _ _ _ tt); [by destruct show_confusion_matrix |].
  eapply selected_later; [exact Hrep |].
  apply selected_here. simpl. apply list_elem_of_singleton. done.
Qed.
End EvaluatorFacts.

(** C7: for every pair of prediction and truth label arrays, each
    classification report [evaluate_model] prints has one line per class of
    the two arrays, in which a class absent from the predictions has
    precision 1.0 and a class absent from the true labels has recall 1.0
    (the zero divisions are treated as 1.0, no error is raised for them);
    and with as many predictions as true labels, at least one, the report
    is printed. *)
Theorem evaluate_model_zero_division {L : Type} {label : Label L} {libs : EvalLibs L}
    (H : option (gmap string (list float))) (y_pred y_test : list L)
    (n_of_epochs : Z) (show_confusion_matrix interpolate : bool)
    (plot_file_name : string) :
  let run := evaluate_model H y_pred y_test n_of_epochs
               show_confusion_matrix interpolate plot_file_name in
  (∀ report, report ∈ printed_reports run →
     Forall2 (λ c row, class_name row = label_str c
                       ∧ (c ∉ y_pred → precision row = 1%float)
                       ∧ (c ∉ y_test → recall row = 1%float)
                       ∧ support row = count_label c y_test)
       (unique_labels y_test y_pred) report)
  ∧ (∀ c, c ∈ unique_labels y_test y_pred ↔ c ∈ y_test ∨ c ∈ y_pred)
  ∧ (length y_test = length y_pred → y_test ≠ [] →
     ∃ report, report ∈ printed_reports run).
Proof.
  intros run. split; [| split].
  - intros report Hin.
    destruct (evaluate_model_printed_reports H y_pred y_test n_of_epochs
                show_confusion_matrix interpolate plot_file_name) as [Hall _].
    rewrite Forall_forall in Hall.
    by apply classification_report_zero_division, Hall.
  - apply unique_labels_elem.
  - apply evaluate_model_prints_report.
Qed.

(** Class 2 is never predicted and class 3 never occurs: their precision
    and recall are the [zero_division] value. *)
Example classification_report_absent_classes :
  classification_report (label := Z_label) [0; 1; 2; 2] [0; 1; 1; 3] (ZdValue 1) =
    Ok [ {| class_name := "0"; precision := 1; recall := 1; support := 1 |};
         {| class_name := "1"; precision := 0.5; recall := 1; support := 1 |};
         {| class_name := "2"; precision := 1; recall := 0; support := 2 |};
         {| class_name := "3"; precision := 0; recall := 1; support := 0 |} ]%float.
Proof. vm_compute. reflexivity. Qed.

Lemma evaluate_model_zero_division_witness :
  ∃ report,
    report ∈ printed_reports
               (evaluate_model (label := Z_label) (libs := flat_libs Z)
                  None [0; 1; 1; 3] [0; 1; 2; 2] 4 true true "plot").
Proof.
  refine (proj2 (proj2 (evaluate_model_zero_division (label := Z_label)
            (libs := flat_libs Z) None [0; 1; 1; 3] [0; 1; 2; 2] 4 true true "plot"))
            _ _); done.
Defined.

(** C9: when [evaluate_model] is given a history, every figure it saves is
    named [{base}-{accuracy:.1f}acc.png], the caller's base name followed by
    the accuracy percentage with one decimal; and a call that returns has
    saved exactly that one figure. *)
Theorem evaluate_model_figure_name {L : Type} {label : Label L} {libs : EvalLibs L}
    (history : gmap string (list float)) (y_pred y_test : list L)
    (n_of_epochs : Z) (show_confusion_matrix interpolate : bool)
    (plot_file_name : string) :
  let run := evaluate_model (Some history) y_pred y_test n_of_epochs
               show_confusion_matrix interpolate plot_file_name in
  (∀ f, f ∈ saved_figures run →
     ∃ acc, accuracy_score y_test y_pred = Ok acc
            ∧ f = plot_file_name +:+ "-" +:+ format_f 1 (acc * 100)%float +:+ "acc.png")
  ∧ (outcome run = Ok tt →
     ∃ acc, accuracy_score y_test y_pred = Ok acc
            ∧ saved_figures run =
                [plot_file_name +:+ "-" +:+ format_f 1 (acc * 100)%float +:+ "acc.png"]).
Proof.
  intros run.
  destruct (evaluate_model_saved_figures history y_pred y_test n_of_epochs
              show_confusion_matrix interpolate plot_file_name) as [Hall Hlen].
  fold run in Hall, Hlen. fold (saved_figures run) in Hall, Hlen.
  split.
  - intros f Hf. rewrite Forall_forall in Hall. by apply Hall.
  - intros Hok. rewrite Hok in Hlen. specialize (Hlen eq_refl).
    destruct (saved_figures run) as [| f [| g fs]]; try done.
    apply Forall_inv in Hall as (acc & Hacc & ->). by exists acc.
Qed.

Definition four_epochs : gmap string (list float) :=
  list_to_map
    [ ("loss", [2; 1; 0.5; 0.25]%float);
      ("val_loss", [2; 1.5; 1; 1]%float);
      ("accuracy", [0.25; 0.5; 0.75; 1]%float);
      ("val_accuracy", [0.25; 0.5; 0.5; 0.75]%float) ].

(** Three of four predictions right: the figure is saved as
    [plot.png-75.0acc.png] (the default base name ends in [.png]). *)
Example evaluate_model_saves_plot :
  saved_figures (evaluate_model (label := Z_label) (libs := flat_libs Z)
                   (Some four_epochs) [0; 1; 1; 2] [0; 1; 2; 2] 4 true true "plot.png")
  = ["plot.png-75.0acc.png"].
Proof. vm_compute. reflexivity. Qed.

Lemma evaluate_model_figure_name_witness :
  ∃ acc,
    accuracy_score (label := Z_label) [0; 1; 2; 2] [0; 1; 1; 2] = Ok acc
    ∧ saved_figures (evaluate_model (label := Z_label) (libs := flat_libs Z)
                       (Some four_epochs) [0; 1; 1; 2] [0; 1; 2; 2] 4 true false "plot.png")
      = ["plot.png" +:+ "-" +:+ format_f 1 (acc * 100)%float +:+ "acc.png"].
Proof.
  apply (proj2 (evaluate_model_figure_name (label := Z_label) (libs := flat_libs Z)
                  four_epochs [0; 1; 1; 2] [0; 1; 2; 2] 4 true false "plot.png")).
  vm_compute. reflexivity.
Defined.

(** ** Worked examples *)

(** One second at 16 kHz is the specification's example; a sample shorter
    than the FFT window gives a negative frame count. *)
Example dimensions_one_second :
  calculate_spectrogram_dimensions 1 2048 512 16000 = Ok (1025, 28).
Proof. reflexivity. Qed.

Example dimensions_short_sample :
  calculate_spectrogram_dimensions 1 2048 512 1000 = Ok (1025, -2).
Proof. reflexivity. Qed.

Example format_f_examples :
  format_f 1 75 = "75.0"
  ∧ format_f 1 (float_of_nat 2 / float_of_nat 3 * 100) = "66.7"
  ∧ format_f 2 (float_of_nat 2 / float_of_nat 3 * 100) = "66.67"
  ∧ format_f 1 0.25 = "0.2"
  ∧ format_f 1 0.75 = "0.8"
  ∧ format_f 1 100 = "100.0"
  ∧ format_f 1 (0 / 0) = "nan".
Proof. repeat split; vm_compute; reflexivity. Qed.

Example tuple_repr_examples :
  tuple_repr [0%nat] = "(0,)" ∧ tuple_repr [10; 128; 8]%nat = "(10, 128, 8)".
Proof. split; reflexivity. Qed.

(** Two waveforms with logging on: the progress line of round 0, the two
    closing lines, and a (2, 128, 3) array. *)
Example extract_features_logged :
  let run := extract_features (librosa := zeros_librosa)
               [silence 4096; silence 4096] "Mel" 16000 2048 2048 128 128 128
               true false in
  output run = [ LogInfo "Extracted 0/2 features.";
                 LogInfo "Extracted features from 2 audio files.";
                 LogInfo "Features shape: (2, 128, 3)" ]
  ∧ (shape <$> to_option run) = Some [2; 128; 3]%nat.
Proof. split; vm_compute; reflexivity. Qed.

(** No waveform, an unknown tag, logging on: the two closing lines, and the
    empty array. *)
Example empty_batch_logged :
  extract_features (librosa := zeros_librosa) [] "Wavelet" 16000 2048 2048 128 128 128
    true true =
  ([ LogInfo "Extracted features from 0 audio files.";
     LogInfo "Features shape: (0,)" ],
   Ok {| shape := [0%nat]; data := [] |}).
Proof. reflexivity. Qed.

Example np_unique_example :
  np_unique (label := Z_label) [7; 3; 7; 5; 3] = [3; 5; 7].
Proof. vm_compute. reflexivity. Qed.

Example onehot_encode_prints :
  output (onehot_encode (label := Z_label) (numpy := python_ints) [7; 3; 7; 5; 3]) =
    [ Print "[INFO] Performing one-hot encoding on multiple nodes...";
      Print "Mapping between column indices and original classes:";
      Print "{0: 3, 1: 5, 2: 7}";
      Print "Labels encoded using OneHotEncoder(), labels.shape: (5, 3)" ].
Proof. vm_compute. reflexivity. Qed.

(** A small and a large integer are stored as doubles, and printed so. *)
Example onehot_encode_prints_doubles :
  output (onehot_encode (label := Z_label) (numpy := python_ints) [2 ^ 63; 1; 2 ^ 63 - 1])
  = [ Print "[INFO] Performing one-hot encoding on multiple nodes...";
      Print "Mapping between column indices and original classes:";
      Print "{0: 1.0, 1: 9.223372036854776e+18}";
      Print "Labels encoded using OneHotEncoder(), labels.shape: (3, 2)" ].
Proof. vm_compute. reflexivity. Qed.

Example round_binary64_examples :
  round_binary64 <$> [2 ^ 53 + 1; 2 ^ 63 - 1; - (2 ^ 63) + 1; 2 ^ 64 - 1; 12345]
  = [2 ^ 53; 2 ^ 63; - (2 ^ 63); 2 ^ 64; 12345].
Proof. vm_compute. reflexivity. Qed.

Example float64_repr_examples :
  float64_repr <$> [0; -5; 9007199254740992; 10 ^ 16; 2 ^ 64; - (2 ^ 63); 123 * 10 ^ 15]
  = [ "0.0"; "-5.0"; "9007199254740992.0"; "1e+16"; "1.8446744073709552e+19";
      "-9.223372036854776e+18"; "1.23e+17" ].
Proof. vm_compute. reflexivity. Qed.

Example confusion_matrix_example :
  confusion_matrix (label := Z_label) [0; 1; 2; 2] [0; 1; 1; 2] =
    Ok [[1; 0; 0]; [0; 1; 0]; [0; 1; 1]]%nat.
Proof. vm_compute. reflexivity. Qed.

(** * The rest of the notebook *)

(** ** Baseline CNN builder *)

Set Warnings "-inexact-float".

Definition create_base_cnn_model {keras : Keras}
    (feature_width feature_height channels classes : Z) : py (list layer) :=
  (* Build the CNN model *)
  model <- lift (Sequential [
    Conv2D 64 (3, 3) None "same" (Some (feature_width, feature_height, channels))
      (Some (ActLeakyReLU 0.01)) None;
    Dropout 0.25;

    Conv2D 128 (3, 3) (Some (4, 4)) "same" None (Some (ActLeakyReLU 0.01)) None;
    Dropout 0.25;

    Conv2D 128 (3, 3) None "same" None (Some (ActLeakyReLU 0.01)) None;
    Dropout 0.25;

    Conv2D 64 (3, 3) (Some (4, 4)) "same" None (Some (ActLeakyReLU 0.01)) None;
    Dropout 0.25;

    Flatten;

    Dense 512 (Some (ActLeakyReLU 0.01)) None;
    BatchNormalization;
    Dropout 0.25;

    Dense 256 (Some (ActLeakyReLU 0.01)) None;
    BatchNormalization;
    Dropout 0.25;

    Dense classes (Some ActSoftmax) None
  ]) ;;
  emit (PrintSummary model) ;;;
  emit (Print "[INFO] Using My CNN model.") ;;;
  py_ret model.

(** ** Transfer-learning builder

    The pretrained network is Keras's: [ResNet50(weights='imagenet',
    include_top=False, input_shape=(w, h, 3))] gives the layers of the base
    model, or raises. A layer is what it is and whether it is trainable;
    assigning [layer.trainable] changes the one layer object that the base
    model and the final model share. *)

Inductive tf_layer_kind : Type :=
| Pretrained (name : string)
| GlobalAveragePooling2D
| TfDense (units : Z) (activation : string)
| TfBatchNormalization
| TfDropout (rate : float).

Record tf_layer : Type := mk_tf_layer {
  kind : tf_layer_kind;
  trainable : bool
}.

Class KerasApplications : Type := {
  (* tf.keras.applications.ResNet50(...).layers *)
  ResNet50 : Z → Z → result (list tf_layer);
  (* Model(inputs=, outputs=): Keras checks the graph *)
  Model_check : list tf_layer → result unit;
  (* the text model.summary() prints *)
  summary_text : list tf_layer → string
}.

Definition set_trainable (b : bool) (l : tf_layer) : tf_layer :=
  {| kind := kind l; trainable := b |}.

(** A layer as its constructor leaves it: trainable. *)
Definition new_layer (k : tf_layer_kind) : tf_layer :=
  {| kind := k; trainable := true |}.

Definition create_resnet50_model {apps : KerasApplications}
    (feature_width feature_height classes : Z) : py (list tf_layer) :=
  base_model <- lift (ResNet50 feature_width feature_height) ;;
  emit (Print ("[INFO] Using Resnet50 model with " +:+ pretty (length base_model) +:+
               " base layers")) ;;;
  (* Freeze the layers of the base model *)
  let base_model := set_trainable false <$> base_model in
  (* Add custom layers on top of ResNet50 *)
  let head :=
    new_layer <$> [ GlobalAveragePooling2D;
                    TfDense 1024 "relu";
                    TfBatchNormalization;
                    TfDropout 0.3;
                    TfDense 512 "relu";
                    TfBatchNormalization;
                    TfDropout 0.4;
                    TfDense classes "softmax" ] in
  (* Create the model *)
  let layers := base_model ++ head in
  lift (Model_check layers) ;;;
  let layers := (set_trainable false <$> take 175 layers) ++ drop 175 layers in
  let layers := take 175 layers ++ (set_trainable true <$> drop 175 layers) in
  emit (Print (summary_text layers)) ;;;
  emit (Print ("[INFO] Using Resnet50 model with " +:+ pretty (length base_model) +:+
               " base layers")) ;;;
  emit (Print ("[INFO] Resnet50 customized has a " +:+ pretty (length layers) +:+
               " layers")) ;;;
  py_ret layers.

Set Warnings "+inexact-float".

(** A stand-in for the pretrained network: [n] layers, all trainable. *)
Definition base_of (n : nat) : KerasApplications := {|
  ResNet50 _ _ := Ok ((λ i, new_layer (Pretrained (pretty i))) <$> seq 0 n);
  Model_check _ := Ok tt;
  summary_text _ := "Model"
|}.

(** ** What a run wrote, by kind *)

Definition plt_of (e : event) : option plt_call :=
  match e with Plt c => Some c | _ => None end.

Definition log_of (e : event) : option string :=
  match e with LogInfo s => Some s | _ => None end.

Definition shown (e : event) : option unit :=
  match e with Plt Show => Some tt | _ => None end.

Definition curve_of (e : event) : option (list float * list float) :=
  match e with Plt (AxPlot _ xs ys _) => Some (xs, ys) | _ => None end.

(** The progress lines of [extract_features] for rounds [i], [i+1], ...,
    [i+n-1] of a batch of [total] waveforms: one every 50 rounds. *)
Definition progress_lines (total i n : nat) : list string :=
  (λ j : nat, "Extracted " +:+ pretty j +:+ "/" +:+ pretty total +:+ " features.")
    <$> filter (λ j : nat, (j `mod` 50 = 0)%nat) (seq i n).

(** * Further properties *)

(** ** Dimension calculator *)

(** X1: with a positive hop length the call returns, and the frame count is
    at least 1 exactly when the audio holds at least [n_fft] samples. *)
Theorem time_frames_positive_iff (sample_rate duration n_fft hop_length : Z) :
  0 < hop_length →
  ∃ time_frames,
    calculate_spectrogram_dimensions duration n_fft hop_length sample_rate
      = Ok (n_fft / 2 + 1, time_frames)
    ∧ (1 ≤ time_frames ↔ n_fft ≤ sample_rate * duration).
Proof.
  intros Hhop. unfold calculate_spectrogram_dimensions.
  rewrite (floordiv_nonzero n_fft 2), (floordiv_nonzero _ hop_length) by lia.
  eexists. split; [reflexivity |].
  set (t := sample_rate * duration - n_fft). split.
  - intros Hq. destruct (decide (t < 0)) as [Hneg | ?]; [| lia].
    assert (t / hop_length < 0) by (apply Z.div_lt_upper_bound; lia). lia.
  - intros Hle. assert (0 ≤ t / hop_length) by (apply Z.div_pos; lia). lia.
Qed.

Lemma time_frames_positive_iff_witness :
  ∃ time_frames,
    calculate_spectrogram_dimensions 1 2048 512 1000 = Ok (2048 / 2 + 1, time_frames)
    ∧ (1 ≤ time_frames ↔ 2048 ≤ 1000 * 1).
Proof. apply time_frames_positive_iff. lia. Defined.

(** X2: lengthening the audio by [k] hops adds [k] frames and leaves the
    number of frequency bins as it is. *)
Theorem time_frames_additive (sample_rate duration duration' n_fft hop_length k : Z)
    (frequency_bins time_frames : Z) :
  hop_length ≠ 0 →
  sample_rate * duration' = sample_rate * duration + k * hop_length →
  calculate_spectrogram_dimensions duration n_fft hop_length sample_rate
    = Ok (frequency_bins, time_frames) →
  calculate_spectrogram_dimensions duration' n_fft hop_length sample_rate
    = Ok (frequency_bins, time_frames + k).
Proof.
  intros Hhop Hlen. unfold calculate_spectrogram_dimensions.
  rewrite (floordiv_nonzero n_fft 2), !(floordiv_nonzero _ hop_length) by lia.
  intros [= <- <-]. rewrite Hlen.
  replace (sample_rate * duration + k * hop_length - n_fft)
    with (sample_rate * duration - n_fft + k * hop_length) by lia.
  rewrite Z.div_add by done. do 2 f_equal. lia.
Qed.

Lemma time_frames_additive_witness :
  calculate_spectrogram_dimensions 11 2048 512 1024 = Ok (1025, 17 + 2).
Proof.
  apply (time_frames_additive 1024 10 11 2048 512 2 1025 17); [lia | lia | reflexivity].
Defined.

(** ** Model builders *)

Set Warnings "-inexact-float".

Lemma create_base_cnn_model_layers {keras : Keras}
    (feature_width feature_height channels classes : Z) (model : list layer) :
  outcome (create_base_cnn_model feature_width feature_height channels classes)
    = Ok model →
  model =
    [ Conv2D 64 (3, 3) None "same" (Some (feature_width, feature_height, channels))
        (Some (ActLeakyReLU 0.01)) None;
      Dropout 0.25;
      Conv2D 128 (3, 3) (Some (4, 4)) "same" None (Some (ActLeakyReLU 0.01)) None;
      Dropout 0.25;
      Conv2D 128 (3, 3) None "same" None (Some (ActLeakyReLU 0.01)) None;
      Dropout 0.25;
      Conv2D 64 (3, 3) (Some (4, 4)) "same" None (Some (ActLeakyReLU 0.01)) None;
      Dropout 0.25;
      Flatten;
      Dense 512 (Some (ActLeakyReLU 0.01)) None;
      BatchNormalization;
      Dropout 0.25;
      Dense 256 (Some (ActLeakyReLU 0.01)) None;
      BatchNormalization;
      Dropout 0.25;
      Dense classes (Some ActSoftmax) None ].
Proof.
  unfold create_base_cnn_model, Sequential.
  rewrite outcome_bind, outcome_lift.
  destruct (keras_build _); [| done].
  rewrite !outcome_bind. cbn [emit py_ret outcome snd]. by intros [= <-].
Qed.

(** Case analysis on an index into a list written out in full. *)
Ltac by_index i n :=
  lazymatch n with
  | O => idtac
  | S ?k => destruct i as [| i]; [| by_index i k]
  end.

(** X3: in the baseline model no layer has a weight regularizer, every
    convolution is directly followed by [Dropout(0.25)], and batch
    normalization comes after the activation: each [BatchNormalization]
    directly follows a dense layer that applies leaky ReLU itself, and is
    followed by [Dropout(0.25)] (the first layer is no
    [BatchNormalization]). *)
Theorem create_base_cnn_model_structure {keras : Keras}
    (feature_width feature_height channels classes : Z) (model : list layer) :
  outcome (create_base_cnn_model feature_width feature_height channels classes)
    = Ok model →
  Forall (λ l, layer_regularizer l = None) model
  ∧ (∀ i l, model !! i = Some l → is_conv l = true →
       model !! S i = Some (Dropout 0.25))
  ∧ (∀ i, model !! S i = Some BatchNormalization →
       (∃ units, model !! i = Some (Dense units (Some (ActLeakyReLU 0.01)) None))
       ∧ model !! S (S i) = Some (Dropout 0.25))
  ∧ model !! 0%nat ≠ Some BatchNormalization.
Proof.
  intros Hrun. apply create_base_cnn_model_layers in Hrun as ->.
  split; [repeat constructor |]. split; [| split; [| done]].
  - intros i l Hi Hconv. by_index i 16%nat; simpl in Hi; [injection Hi as <-; done .. | done].
  - intros i Hi. by_index i 16%nat; simpl in Hi; try discriminate; split; by eexists.
Qed.

Lemma create_base_cnn_model_structure_witness :
  ∃ model,
    outcome (create_base_cnn_model (keras := accepting_keras) 128 8 1 50) = Ok model
    ∧ Forall (λ l, layer_regularizer l = None) model.
Proof.
  eexists. split; [reflexivity |].
  eapply (create_base_cnn_model_structure (keras := accepting_keras) 128 8 1 50).
  reflexivity.
Defined.

(** X4: in the improved model batch normalization comes before the
    activation: each [BatchNormalization] directly follows a regularized
    dense layer that has no activation of its own, and is followed by
    [LeakyReLU(0.1)] and then [Dropout(0.3)] (the first layer is no
    [BatchNormalization]). *)
Theorem create_better_base_cnn_model_normalizes_first {keras : Keras}
    (feature_width feature_height channels classes : Z) (model : list layer) :
  outcome (create_better_base_cnn_model feature_width feature_height channels classes)
    = Ok model →
  (∃ i, model !! i = Some BatchNormalization)
  ∧ (∀ i, model !! S i = Some BatchNormalization →
       (∃ units, model !! i = Some (Dense units None (Some (l2 0.01))))
       ∧ model !! S (S i) = Some (LeakyReLU 0.1)
       ∧ model !! S (S (S i)) = Some (Dropout 0.3))
  ∧ model !! 0%nat ≠ Some BatchNormalization.
Proof.
  unfold create_better_base_cnn_model, Sequential.
  rewrite outcome_bind, outcome_lift.
  destruct (keras_build _); [| done].
  rewrite !outcome_bind. cbn [emit py_ret outcome snd]. intros [= <-].
  split; [by exists 8%nat |]. split; [| done].
  intros i Hi. by_index i 16%nat; simpl in Hi; try discriminate; repeat split; by eexists.
Qed.

Lemma create_better_base_cnn_model_normalizes_first_witness :
  ∃ model,
    outcome (create_better_base_cnn_model (keras := accepting_keras) 128 8 1 50)
      = Ok model
    ∧ ∃ i, model !! i = Some BatchNormalization.
Proof.
  eexists. split; [reflexivity |].
  eapply (create_better_base_cnn_model_normalizes_first (keras := accepting_keras)
            128 8 1 50).
  reflexivity.
Defined.

Lemma refreeze_layers (n : nat) (layers : list tf_layer) :
  let frozen := (set_trainable false <$> take n layers) ++ drop n layers in
  take n frozen ++ (set_trainable true <$> drop n frozen) =
  (set_trainable false <$> take n layers) ++ (set_trainable true <$> drop n layers).
Proof.
  intros frozen. unfold frozen.
  destruct (decide (n ≤ length layers)%nat) as [Hle | Hgt].
  - rewrite take_app_length' by (rewrite length_fmap, length_take; lia).
    by rewrite drop_app_length' by (rewrite length_fmap, length_take; lia).
  - rewrite (drop_ge layers), (take_ge layers), !app_nil_r by lia.
    rewrite take_ge by (rewrite length_fmap; lia).
    rewrite drop_ge by (rewrite length_fmap; lia).
    simpl. by rewrite ?app_nil_r.
Qed.

(** X5: in the model [create_resnet50_model] returns, the layers are those
    of the pretrained base followed by the eight layers of the new head, and
    the layer at index [i] is trainable exactly when [i >= 175], whatever the
    base: the freeze of the base layers is overridden for base layers from
    index 175 on, and head layers below index 175 end up frozen. *)
Theorem create_resnet50_model_trainable {apps : KerasApplications}
    (feature_width feature_height classes : Z) (model : list tf_layer) :
  outcome (create_resnet50_model feature_width feature_height classes) = Ok model →
  ∃ base,
    ResNet50 feature_width feature_height = Ok base
    ∧ kind <$> model =
        (kind <$> base) ++
        [ GlobalAveragePooling2D; TfDense 1024 "relu"; TfBatchNormalization;
          TfDropout 0.3; TfDense 512 "relu"; TfBatchNormalization;
          TfDropout 0.4; TfDense classes "softmax" ]
    ∧ ∀ i l, model !! i = Some l → trainable l = bool_decide (175 ≤ i)%nat.
Proof.
  unfold create_resnet50_model.
  rewrite outcome_bind, outcome_lift.
  destruct (ResNet50 feature_width feature_height) as [base |]; [| done].
  rewrite ?outcome_bind. cbn [emit lift outcome snd].
  destruct (Model_check _); [| done].
  rewrite ?outcome_bind. cbn [emit py_ret outcome snd]. intros [= <-].
  exists base. split; [done |]. rewrite refreeze_layers.
  set (layers := (set_trainable false <$> base) ++ _). split.
  - rewrite fmap_app, <- !list_fmap_compose.
    rewrite <- fmap_app, take_drop. unfold layers.
    by rewrite fmap_app, <- list_fmap_compose.
  - intros i l Hi.
    destruct (decide (i < 175)%nat) as [Hlt | Hge].
    + rewrite bool_decide_eq_false_2 by lia.
      destruct (decide (i < length (take 175 layers))%nat) as [Hin | Hout].
      * rewrite lookup_app_l in Hi by (by rewrite length_fmap).
        apply list_lookup_fmap_Some in Hi as (l0 & -> & _). done.
      * rewrite length_take in Hout.
        rewrite lookup_app_r in Hi by (rewrite length_fmap, length_take; lia).
        apply lookup_lt_Some in Hi.
        rewrite !length_fmap, length_drop, length_take in Hi. lia.
    + rewrite bool_decide_eq_true_2 by lia.
      rewrite lookup_app_r in Hi by (rewrite length_fmap, length_take; lia).
      apply list_lookup_fmap_Some in Hi as (l0 & -> & _). done.
Qed.

Lemma create_resnet50_model_trainable_witness :
  ∃ model,
    outcome (create_resnet50_model (apps := base_of 175) 128 128 50) = Ok model
    ∧ ∃ base,
        ResNet50 (KerasApplications := base_of 175) 128 128 = Ok base
        ∧ kind <$> model =
            (kind <$> base) ++
            [ GlobalAveragePooling2D; TfDense 1024 "relu"; TfBatchNormalization;
              TfDropout 0.3; TfDense 512 "relu"; TfBatchNormalization;
              TfDropout 0.4; TfDense 50 "softmax" ]
        ∧ ∀ i l, model !! i = Some l → trainable l = bool_decide (175 ≤ i)%nat.
Proof.
  eexists. split; [vm_compute; reflexivity |].
  apply (create_resnet50_model_trainable (apps := base_of 175) 128 128 50).
  vm_compute. reflexivity.
Defined.

(** With the 175 layers of ResNet50 the 8 head layers are the trainable
    ones; with a base of 170 layers only the last 3 are. *)
Example create_resnet50_model_trainable_counts :
  (length ∘ filter (λ l, trainable l = true)) <$>
    to_option (create_resnet50_model (apps := base_of 175) 128 128 50) = Some 8%nat
  ∧ (length ∘ filter (λ l, trainable l = true)) <$>
      to_option (create_resnet50_model (apps := base_of 170) 128 128 50) = Some 3%nat
  ∧ (length ∘ filter (λ l, trainable l = true)) <$>
      to_option (create_resnet50_model (apps := base_of 180) 128 128 50) = Some 13%nat.
Proof. repeat split; vm_compute; reflexivity. Qed.

Set Warnings "+inexact-float".

(** ** Batch feature pipeline *)

Lemma Forall_False_nil {A} (l : list A) : Forall (λ _, False) l → l = [].
Proof. by destruct 1. Qed.

Lemma emits_nothing {A C} (sel : event → option C) (run : py A) :
  emits sel 0 (λ _, False) run → omap sel (output run) = [].
Proof. intros [Hall _]. by apply Forall_False_nil. Qed.

Lemma omap_Some_id {A} (l : list A) : omap Some l = l.
Proof. induction l as [| x l IH]; [done |]. simpl. by f_equal. Qed.

Lemma collect_app_raise {A} (before after : list (result A)) (e : exn) :
  Forall (λ r, is_ok r = true) before →
  collect (before ++ Raise e :: after) = Raise e.
Proof.
  induction 1 as [| r before Hr _ IH]; [done |].
  destruct r; [| done]. simpl. by rewrite IH.
Qed.

Section PipelineFacts.
Context {librosa : Librosa}.

(** The extractors log nothing, and plot nothing unless asked to. *)
Lemma dispatch_logs feature sr hop_length n_fft n_mels n_chroma n_mfcc show_plt data st :
  emits log_of 0 (λ _, False)
    (dispatch feature sr hop_length n_fft n_mels n_chroma n_mfcc show_plt data st).
Proof.
  unfold dispatch, extract_stft_spectrogram, extract_mel_spectrogram, extract_MFCCs,
    extract_chroma_stft, extract_spectral_contrast.
  repeat case_decide; quiet.
Qed.

Lemma dispatch_plots feature sr hop_length n_fft n_mels n_chroma n_mfcc data st :
  emits plt_of 0 (λ _, False)
    (dispatch feature sr hop_length n_fft n_mels n_chroma n_mfcc false data st).
Proof.
  unfold dispatch, extract_stft_spectrogram, extract_mel_spectrogram, extract_MFCCs,
    extract_chroma_stft, extract_spectral_contrast.
  cbv beta iota delta [when]. repeat case_decide; quiet.
Qed.

Lemma dispatch_writes feature sr hop_length n_fft n_mels n_chroma n_mfcc data st :
  emits Some 0 (λ _, False)
    (dispatch feature sr hop_length n_fft n_mels n_chroma n_mfcc false data st).
Proof.
  unfold dispatch, extract_stft_spectrogram, extract_mel_spectrogram, extract_MFCCs,
    extract_chroma_stft, extract_spectral_contrast.
  cbv beta iota delta [when]. repeat case_decide; quiet.
Qed.

Lemma for_loop_emits {C} (sel : event → option C) (Q : C → Prop)
    feature sr hop_length n_fft n_mels n_chroma n_mfcc show_logs show_plt total :
  (∀ i data st,
     emits sel 0 Q (loop_body feature sr hop_length n_fft n_mels n_chroma n_mfcc
                      show_logs show_plt total i data st)) →
  ∀ samples i st,
    emits sel 0 Q (for_loop feature sr hop_length n_fft n_mels n_chroma n_mfcc
                     show_logs show_plt total i samples st).
Proof.
  intros Hbody. induction samples as [| data rest IH]; intros i st.
  - apply emits_ret.
  - cbn [for_loop]. apply emits_step; [apply Hbody | intros; apply IH].
Qed.

Lemma extract_features_no_plots samples feature sr hop_length n_fft n_mels
    n_chroma n_mfcc show_logs :
  omap plt_of (output (extract_features samples feature sr hop_length n_fft n_mels
                         n_chroma n_mfcc show_logs false)) = [].
Proof.
  unfold extract_features. apply emits_nothing.
  apply emits_step; [| intros; quiet].
  apply for_loop_emits. intros. unfold loop_body.
  apply emits_step; [apply dispatch_plots | intros [s |] _; quiet].
Qed.

(** X6: with [show_plt] off [extract_features] plots nothing, with
    [show_logs] off it logs nothing, and with both off it writes nothing at
    all, whatever the samples, the tag and the way the call ends. *)
Theorem extract_features_quiet (samples : list ndarray) (feature : string)
    (sr hop_length n_fft n_mels n_chroma n_mfcc : Z) (show_logs show_plt : bool) :
  let run := extract_features samples feature sr hop_length n_fft n_mels
               n_chroma n_mfcc show_logs show_plt in
  (show_plt = false → omap plt_of (output run) = [])
  ∧ (show_logs = false → omap log_of (output run) = [])
  ∧ (show_plt = false → show_logs = false → output run = []).
Proof.
  intros run. unfold run, extract_features. repeat split.
  - intros ->. apply extract_features_no_plots.
  - intros ->. apply emits_nothing. cbv beta iota delta [when andb].
    apply emits_step; [| intros; quiet].
    apply for_loop_emits. intros. unfold loop_body.
    apply emits_step; [apply dispatch_logs | intros [s |] _; [| quiet]].
    cbv beta iota delta [when andb]. quiet.
  - intros -> ->. rewrite <- (omap_Some_id (output _)).
    apply emits_nothing. cbv beta iota delta [when andb].
    apply emits_step; [| intros; quiet].
    apply for_loop_emits. intros. unfold loop_body.
    apply emits_step; [apply dispatch_writes | intros [s |] _; [| quiet]].
    cbv beta iota delta [when andb]. quiet.
Qed.

Lemma py_bind_ext {A B} (m : py A) (f g : A → py B) :
  (∀ x, f x = g x) → py_bind m f = py_bind m g.
Proof. intros Hfg. destruct m as [out [x | e]]; simpl; [by rewrite Hfg | done]. Qed.

Lemma for_loop_show_plt_ignored feature sr hop_length n_fft n_mels n_chroma n_mfcc
    show_logs show_plt show_plt' total :
  feature ∈ ["ChromaStft"; "SpectralContrast"] →
  ∀ samples i st,
    for_loop feature sr hop_length n_fft n_mels n_chroma n_mfcc
      show_logs show_plt total i samples st =
    for_loop feature sr hop_length n_fft n_mels n_chroma n_mfcc
      show_logs show_plt' total i samples st.
Proof.
  intros Hf. induction samples as [| data rest IH]; intros i st; [done |].
  cbn [for_loop]. rewrite (py_bind_ext _ _ _ (IH (S i))). f_equal.
  rewrite !elem_of_cons, elem_of_nil in Hf.
  destruct Hf as [-> | [-> | []]]; reflexivity.
Qed.

(** X7: for the tags ["ChromaStft"] and ["SpectralContrast"] the flag
    [show_plt] has no effect at all: the run is the same with it on or off,
    and nothing is plotted. *)
Theorem extract_features_show_plt_ignored (samples : list ndarray) (feature : string)
    (sr hop_length n_fft n_mels n_chroma n_mfcc : Z)
    (show_logs show_plt show_plt' : bool) :
  feature ∈ ["ChromaStft"; "SpectralContrast"] →
  extract_features samples feature sr hop_length n_fft n_mels n_chroma n_mfcc
    show_logs show_plt =
  extract_features samples feature sr hop_length n_fft n_mels n_chroma n_mfcc
    show_logs show_plt'
  ∧ omap plt_of (output (extract_features samples feature sr hop_length n_fft n_mels
                           n_chroma n_mfcc show_logs show_plt)) = [].
Proof.
  intros Hf.
  assert (∀ p p', extract_features samples feature sr hop_length n_fft n_mels
                    n_chroma n_mfcc show_logs p =
                  extract_features samples feature sr hop_length n_fft n_mels
                    n_chroma n_mfcc show_logs p') as Heq.
  { intros p p'. unfold extract_features.
    by rewrite (for_loop_show_plt_ignored _ _ _ _ _ _ _ _ p p'). }
  split; [apply Heq |].
  rewrite (Heq show_plt false). apply extract_features_no_plots.
Qed.

(** X8: [extract_features] stops at the first waveform on which the
    extractor raises: if the extractor returns for the waveforms before [w]
    and raises [e] on [w], the call raises [e], whatever comes after [w]. *)
Theorem extract_features_fails_fast (before after : list ndarray) (w : ndarray)
    (feature : string) (sr hop_length n_fft n_mels n_chroma n_mfcc : Z)
    (show_logs show_plt : bool) (e : exn) :
  Forall (λ v, is_ok (extractor feature sr hop_length n_fft n_mels n_chroma n_mfcc v)
               = true) before →
  extractor feature sr hop_length n_fft n_mels n_chroma n_mfcc w = Raise e →
  outcome (extract_features (before ++ w :: after) feature sr hop_length n_fft n_mels
             n_chroma n_mfcc show_logs show_plt) = Raise e.
Proof.
  intros Hbefore Hw. rewrite extract_features_outcome. unfold stacked.
  rewrite fmap_app, fmap_cons, Hw, collect_app_raise; [done |].
  by apply Forall_fmap.
Qed.

Lemma dispatch_returns feature sr hop_length n_fft n_mels n_chroma n_mfcc
    show_plt data st s :
  extractor feature sr hop_length n_fft n_mels n_chroma n_mfcc data = Ok s →
  outcome (dispatch feature sr hop_length n_fft n_mels n_chroma n_mfcc
             show_plt data st) = Ok (Some s).
Proof.
  unfold extractor, dispatch. repeat case_decide; rewrite ?outcome_bind;
    rewrite ?extract_stft_spectrogram_outcome, ?extract_mel_spectrogram_outcome,
      ?extract_MFCCs_outcome; unfold outcome; try by intros ->.
  done.
Qed.

Lemma progress_lines_S (total i n : nat) :
  progress_lines total i (S n) =
  (if decide (i `mod` 50 = 0)%nat
   then ["Extracted " +:+ pretty i +:+ "/" +:+ pretty total +:+ " features."]
   else []) ++ progress_lines total (S i) n.
Proof.
  unfold progress_lines. cbn [seq]. rewrite filter_cons. by case_decide.
Qed.

Lemma for_loop_logs feature sr hop_length n_fft n_mels n_chroma n_mfcc show_plt total
    (samples : list ndarray) : ∀ i st fs,
  collect (extractor feature sr hop_length n_fft n_mels n_chroma n_mfcc <$> samples)
    = Ok fs →
  omap log_of (output (for_loop feature sr hop_length n_fft n_mels n_chroma n_mfcc
                         true show_plt total i samples st))
  = progress_lines total i (length samples).
Proof.
  induction samples as [| data rest IH]; intros i st fs Hc; [done |].
  rewrite fmap_cons in Hc. cbn [collect] in Hc.
  destruct (extractor _ _ _ _ _ _ _ data) as [s |] eqn:Hs; [| done].
  destruct (collect _) as [fs' |] eqn:Hrest; [| done].
  cbn [for_loop length]. rewrite progress_lines_S, output_bind, omap_app.
  assert (feature ∈ feature_tags) as Hknown by (by eapply extractor_known).
  rewrite loop_body_outcome, Hs by (by right).
  rewrite (IH (S i) _ fs' eq_refl). f_equal.
  unfold loop_body. rewrite output_bind, omap_app.
  rewrite (emits_nothing _ _ (dispatch_logs _ _ _ _ _ _ _ _ _ _)).
  rewrite (dispatch_returns _ _ _ _ _ _ _ _ _ _ s Hs).
  rewrite output_bind, omap_app. cbn [andb when].
  destruct (Nat.eqb_spec (i `mod` 50) 0) as [Hi | Hi].
  - by rewrite decide_True.
  - by rewrite decide_False.
Qed.

(** X9: when [extract_features] returns with [show_logs] on, its log is one
    progress line for each round whose index is a multiple of 50 (0, 50,
    100, ...), in order, then the two closing lines with the number of
    samples and the shape of the result; plotting does not change it. *)
Theorem extract_features_progress_log (samples : list ndarray) (feature : string)
    (sr hop_length n_fft n_mels n_chroma n_mfcc : Z) (show_plt : bool)
    (arr : ndarray) :
  let run := extract_features samples feature sr hop_length n_fft n_mels
               n_chroma n_mfcc true show_plt in
  outcome run = Ok arr →
  omap log_of (output run) =
    progress_lines (length samples) 0 (length samples) ++
    [ "Extracted features from " +:+ pretty (length samples) +:+ " audio files.";
      "Features shape: " +:+ tuple_repr (shape arr) ].
Proof.
  intros run Hrun. unfold run in *. rewrite extract_features_outcome in Hrun.
  unfold stacked in Hrun.
  destruct (collect _) as [fs |] eqn:Hc; [| done].
  unfold extract_features. rewrite output_bind, omap_app.
  rewrite (for_loop_logs _ _ _ _ _ _ _ _ _ _ _ _ fs Hc). f_equal.
  pose proof (for_loop_outcome feature sr hop_length n_fft n_mels n_chroma n_mfcc
                true show_plt (length samples) samples 0
                {| spect := None; features := [] |} (or_introl eq_refl)) as Hloop.
  rewrite Hc in Hloop. destruct Hloop as [sp ->]. cbn [features app].
  rewrite Hrun. reflexivity.
Qed.

Lemma loop_body_shown feature sr hop_length n_fft n_mels n_chroma n_mfcc
    show_logs total i data st :
  feature ∈ ["Stft"; "Mel"; "MFCC"] →
  emits shown 1 (λ _, True)
    (loop_body feature sr hop_length n_fft n_mels n_chroma n_mfcc
       show_logs true total i data st).
Proof.
  intros Hf. rewrite !elem_of_cons, elem_of_nil in Hf.
  unfold loop_body, dispatch, extract_stft_spectrogram, extract_mel_spectrogram,
    extract_MFCCs.
  apply emits_last; [| intros [s |] _; quiet].
  destruct Hf as [-> | [-> | [-> | []]]]; repeat case_decide; try congruence;
    (apply emits_last; [| intros; solve [quiet]]);
    repeat (apply emits_step; [solve [quiet] | intros ? ?]);
    (apply emits_last; [| intros; solve [quiet]]);
    cbv beta iota delta [when];
    repeat (apply emits_step; [solve [quiet] | intros ? ?]);
    by eapply emits_emit.
Qed.

Lemma for_loop_shown feature sr hop_length n_fft n_mels n_chroma n_mfcc
    show_logs total :
  feature ∈ ["Stft"; "Mel"; "MFCC"] →
  ∀ samples i st,
    emits shown (length samples) (λ _, True)
      (for_loop feature sr hop_length n_fft n_mels n_chroma n_mfcc
         show_logs true total i samples st).
Proof.
  intros Hf. induction samples as [| data rest IH]; intros i st.
  - apply emits_ret.
  - cbn [for_loop length]. apply (emits_bind _ _ 1 (length rest)).
    + by apply loop_body_shown.
    + intros. apply IH.
Qed.

(** X10: with [show_plt] on and one of the plotting extractors (["Stft"],
    ["Mel"], ["MFCC"]), a call of [extract_features] that returns has shown
    exactly one figure per waveform. *)
Theorem extract_features_one_figure_each (samples : list ndarray) (feature : string)
    (sr hop_length n_fft n_mels n_chroma n_mfcc : Z) (show_logs : bool)
    (arr : ndarray) :
  let run := extract_features samples feature sr hop_length n_fft n_mels
               n_chroma n_mfcc show_logs true in
  feature ∈ ["Stft"; "Mel"; "MFCC"] →
  outcome run = Ok arr →
  length (omap shown (output run)) = length samples.
Proof.
  intros run Hf Hrun.
  assert (emits shown (length samples) (λ _, True) run) as [_ Hlen].
  { unfold run, extract_features.
    apply emits_last; [by apply for_loop_shown | intros; quiet]. }
  apply Hlen. by rewrite Hrun.
Qed.
End PipelineFacts.


(** A stand-in for librosa that, in addition, rejects a waveform without
    samples. *)
Definition nonempty (y : ndarray) (r : result ndarray) : result ndarray :=
  match data y with
  | [] => Raise (LibraryError "ParameterError")
  | _ => r
  end.

Definition strict_librosa : Librosa := {|
  complex_ndarray := ndarray;
  librosa_stft y n_fft hop_length :=
    nonempty y (librosa_stft (Librosa := zeros_librosa) y n_fft hop_length);
  np_abs a := a;
  np_square a := a;
  librosa_amplitude_to_db a := Ok a;
  librosa_power_to_db a := Ok a;
  librosa_feature_melspectrogram y sr n_fft hop_length n_mels :=
    nonempty y (librosa_feature_melspectrogram (Librosa := zeros_librosa)
                  y sr n_fft hop_length n_mels);
  librosa_feature_mfcc y sr n_mfcc n_fft hop_length :=
    nonempty y (librosa_feature_mfcc (Librosa := zeros_librosa)
                  y sr n_mfcc n_fft hop_length);
  librosa_feature_chroma_stft := librosa_feature_chroma_stft (Librosa := zeros_librosa);
  librosa_feature_spectral_contrast :=
    librosa_feature_spectral_contrast (Librosa := zeros_librosa)
|}.

Lemma extract_features_show_plt_ignored_witness :
  extract_features (librosa := zeros_librosa) [silence 4096; silence 2048]
    "SpectralContrast" 16000 2048 2048 128 128 128 true true =
  extract_features (librosa := zeros_librosa) [silence 4096; silence 2048]
    "SpectralContrast" 16000 2048 2048 128 128 128 true false
  ∧ omap plt_of (output (extract_features (librosa := zeros_librosa)
                           [silence 4096; silence 2048] "SpectralContrast"
                           16000 2048 2048 128 128 128 true true)) = [].
Proof.
  apply extract_features_show_plt_ignored. rewrite !elem_of_cons. auto.
Defined.

Lemma extract_features_fails_fast_witness :
  outcome (extract_features (librosa := strict_librosa)
             ([silence 4096] ++ silence 0 :: [silence 4096; silence 4096])
             "Mel" 16000 2048 2048 4 4 4 true false)
  = Raise (LibraryError "ParameterError").
Proof.
  apply extract_features_fails_fast.
  - repeat constructor.
  - reflexivity.
Defined.

Lemma extract_features_progress_log_witness :
  omap log_of (output (extract_features (librosa := zeros_librosa)
                         (replicate 101 (silence 4096)) "Mel"
                         16000 2048 2048 2 2 2 true true)) =
    progress_lines 101 0 101 ++
    [ "Extracted features from " +:+ pretty 101%nat +:+ " audio files.";
      "Features shape: " +:+ tuple_repr [101; 2; 3]%nat ].
Proof.
  apply (extract_features_progress_log (librosa := zeros_librosa)
           (replicate 101 (silence 4096)) "Mel" 16000 2048 2048 2 2 2 true
           {| shape := [101; 2; 3]%nat; data := replicate 606 0%float |}).
  vm_compute. reflexivity.
Defined.

(** 101 waveforms: progress lines for rounds 0, 50 and 100. *)
Example progress_lines_101 :
  progress_lines 101 0 101 =
    [ "Extracted 0/101 features."; "Extracted 50/101 features.";
      "Extracted 100/101 features." ].
Proof. vm_compute. reflexivity. Qed.

Lemma extract_features_one_figure_each_witness :
  length (omap shown (output (extract_features (librosa := zeros_librosa)
                                [silence 4096; silence 4096; silence 4096] "MFCC"
                                16000 2048 2048 4 4 4 false true))) = 3%nat.
Proof.
  apply (extract_features_one_figure_each (librosa := zeros_librosa)
           [silence 4096; silence 4096; silence 4096] "MFCC"
           16000 2048 2048 4 4 4 false
           {| shape := [3; 4; 3]%nat; data := replicate 36 0%float |}).
  - rewrite !elem_of_cons. auto.
  - vm_compute. reflexivity.
Defined.

(** ** Label encoder *)

Section OnehotFacts.
Context {L : Type} {label : Label L} {numpy : Numpy L}.

#[local] Abbreviation lt := (strict label_le).

(** The sorted distinct values of a list depend on its elements only. *)
Lemma np_unique_same_elements (l l' : list L) :
  (∀ x, x ∈ l ↔ x ∈ l') → np_unique l = np_unique l'.
Proof.
  intros Hsame.
  apply (StronglySorted_unique_strong lt); try apply np_unique_sorted.
  - intros x1 x2 _ _ [H12 Hn21] [H21 _]. done.
  - apply NoDup_Permutation; try apply np_unique_NoDup.
    intros x. by rewrite !np_unique_elem.
Qed.

(** The column of a label is the number of distinct labels below it. *)
Lemma np_unique_rank (l : list L) (i : nat) (x : L) :
  np_unique l !! i = Some x ↔
  x ∈ l ∧ length (filter (λ y, lt y x) (remove_dups l)) = i.
Proof.
  pose proof (np_unique_sorted l) as Hs.
  assert (∀ j z, np_unique l !! j = Some z →
            length (filter (λ y, lt y z) (remove_dups l)) = j) as Hrank.
  { intros j z Hj. rewrite <- (strictly_sorted_rank (np_unique l) j z) by done.
    apply Permutation_length. symmetry.
    apply filter_Permutation, np_unique_distinct. }
  split.
  - intros Hi. split; [| by apply Hrank].
    by eapply np_unique_elem, list_elem_of_lookup_2.
  - intros [Hx Hcount].
    apply np_unique_elem, list_elem_of_lookup in Hx as [j Hj].
    by rewrite <- Hcount, (Hrank j x Hj).
Qed.

Lemma onehot_encode_result (labels : list L) (m : ndarray) (mapping : gmap nat L) :
  outcome (onehot_encode labels) = Ok (m, mapping) →
  let column := np_array_reshape labels in
  labels ≠ []
  ∧ m = of_rows (length (np_unique column)) (onehot_row (np_unique column) <$> column)
  ∧ mapping = map_seq 0 (np_unique column).
Proof.
  intros Hrun column. destruct (decide (labels = [])) as [-> | Hne].
  { by rewrite onehot_encode_no_labels in Hrun. }
  rewrite onehot_encode_returns in Hrun by done. by injection Hrun as <- <-.
Qed.

(** Two label collections with the same elements are stored alike. *)
Lemma np_array_reshape_same_elements (labels labels' : list L) :
  (∀ x, x ∈ labels ↔ x ∈ labels') →
  result_type labels = result_type labels'
  ∧ np_unique (np_array_reshape labels) = np_unique (np_array_reshape labels').
Proof.
  intros Hsame. pose proof (result_type_elements labels labels' Hsame) as Hd.
  split; [done |]. apply np_unique_same_elements. intros y.
  unfold np_array_reshape. rewrite <- Hd, !list_elem_of_fmap.
  by setoid_rewrite Hsame.
Qed.

(** X11: the encoding depends on the set of labels only, not on their order
    or repetitions: two label collections with the same elements get the
    same mapping, and a label gets the same row in both matrices. *)
Theorem onehot_encode_same_labels (labels labels' : list L)
    (m m' : ndarray) (mapping mapping' : gmap nat L) :
  outcome (onehot_encode labels) = Ok (m, mapping) →
  outcome (onehot_encode labels') = Ok (m', mapping') →
  (∀ x, x ∈ labels ↔ x ∈ labels') →
  mapping = mapping'
  ∧ ∀ r r' x, labels !! r = Some x → labels' !! r' = Some x →
      rows m !! r = rows m' !! r'.
Proof.
  intros (_ & -> & ->)%onehot_encode_result (_ & -> & ->)%onehot_encode_result Hsame.
  destruct (np_array_reshape_same_elements labels labels' Hsame) as [Hd Hcats].
  rewrite !onehot_rows, Hcats.
  split; [done |]. intros r r' x Hr Hr'.
  unfold np_array_reshape at 2 4.
  by rewrite !list_lookup_fmap, Hr, Hr', Hd.
Qed.

(** X12: two samples get the same row of the matrix exactly when
    [np.array] stores their labels as the same value; for labels it stores
    unchanged, exactly when they have the same label. *)
Theorem onehot_encode_rows_injective (labels : list L) (m : ndarray)
    (mapping : gmap nat L) (r1 r2 : nat) (x1 x2 : L) (row1 row2 : list float) :
  outcome (onehot_encode labels) = Ok (m, mapping) →
  labels !! r1 = Some x1 → labels !! r2 = Some x2 →
  rows m !! r1 = Some row1 → rows m !! r2 = Some row2 →
  (row1 = row2 ↔ astype (result_type labels) x1 = astype (result_type labels) x2)
  ∧ (np_array_reshape labels = labels → (row1 = row2 ↔ x1 = x2)).
Proof.
  intros (_ & -> & ->)%onehot_encode_result H1 H2.
  rewrite onehot_rows. unfold np_array_reshape at 2 4.
  rewrite !list_lookup_fmap, H1, H2. intros [= <-] [= <-].
  set (d := result_type labels).
  assert (astype d x1 ∈ np_array_reshape labels ∧ astype d x2 ∈ np_array_reshape labels)
    as [Hin1 Hin2].
  { unfold np_array_reshape. fold d. split; apply list_elem_of_fmap_2;
      by eapply list_elem_of_lookup_2. }
  assert (onehot_row (np_unique (np_array_reshape labels)) (astype d x1) =
          onehot_row (np_unique (np_array_reshape labels)) (astype d x2)
          ↔ astype d x1 = astype d x2) as Hrows.
  { split; [| by intros ->]. intros Hrows.
    pose proof (np_unique_NoDup (np_array_reshape labels)) as Hnd.
    assert (Some (astype d x1) = Some (astype d x2)) as [= ->]; [| done].
    rewrite <- (decode_row_onehot (np_unique (np_array_reshape labels)) (astype d x1)),
      Hrows by (done || by apply np_unique_elem).
    apply decode_row_onehot; [done | by apply np_unique_elem]. }
  split; [done |]. intros Hstored. rewrite Hrows.
  assert (astype d x1 = x1 ∧ astype d x2 = x2) as [-> ->]; [| done].
  unfold np_array_reshape in Hstored. fold d in Hstored.
  split.
  - apply (f_equal (λ l, l !! r1)) in Hstored.
    rewrite list_lookup_fmap, H1 in Hstored. by injection Hstored.
  - apply (f_equal (λ l, l !! r2)) in Hstored.
    rewrite list_lookup_fmap, H2 in Hstored. by injection Hstored.
Qed.

(** X13: the column of a label is not stable under new labels. When labels
    that [np.array] stores unchanged are encoded again together with one
    new label [y], also stored unchanged, every label above [y] moves one
    column to the right, and every label below [y] keeps its column. *)
Theorem onehot_encode_new_label_shifts (labels labels' : list L) (y : L)
    (m m' : ndarray) (mapping mapping' : gmap nat L) :
  outcome (onehot_encode labels) = Ok (m, mapping) →
  outcome (onehot_encode labels') = Ok (m', mapping') →
  np_array_reshape labels = labels →
  np_array_reshape labels' = labels' →
  y ∉ labels →
  (∀ z, z ∈ labels' ↔ z = y ∨ z ∈ labels) →
  ∀ i x, mapping !! i = Some x →
    (lt y x → mapping' !! S i = Some x) ∧ (lt x y → mapping' !! i = Some x).
Proof.
  intros (_ & _ & ->)%onehot_encode_result (_ & _ & ->)%onehot_encode_result.
  intros -> -> Hy Hnew i x.
  rewrite !lookup_map_seq_0, !np_unique_rank. intros [Hx <-].
  assert (remove_dups labels' ≡ₚ y :: remove_dups labels) as Hperm.
  { apply NoDup_Permutation.
    - apply NoDup_remove_dups.
    - constructor; [by rewrite elem_of_remove_dups | apply NoDup_remove_dups].
    - intros z. by rewrite elem_of_cons, !elem_of_remove_dups. }
  assert (length (filter (λ z, lt z x) (remove_dups labels')) =
          length (filter (λ z, lt z x) (y :: remove_dups labels))) as ->.
  { apply Permutation_length. by apply filter_Permutation. }
  rewrite filter_cons.
  split; intros Hlt; (split; [apply Hnew; by right |]).
  - by rewrite decide_True.
  - rewrite decide_False; [done |]. intros [_ Hn]. by destruct Hlt.
Qed.
End OnehotFacts.

Lemma onehot_encode_same_labels_witness :
  (map_seq 0 [3; 5; 7] : gmap nat Z) = map_seq 0 [3; 5; 7]
  ∧ ∀ r r' x, [7; 3; 7; 5; 3] !! r = Some x → [5; 7; 3] !! r' = Some x →
      rows (of_rows 3 [[0; 0; 1]; [1; 0; 0]; [0; 0; 1]; [0; 1; 0]; [1; 0; 0]]%float) !! r
      = rows (of_rows 3 [[0; 1; 0]; [0; 0; 1]; [1; 0; 0]]%float) !! r'.
Proof.
  apply (onehot_encode_same_labels (label := Z_label) (numpy := python_ints)
           [7; 3; 7; 5; 3] [5; 7; 3]).
  - vm_compute. reflexivity.
  - vm_compute. reflexivity.
  - intros x. rewrite !elem_of_cons, !elem_of_nil. tauto.
Defined.

Lemma onehot_encode_rows_injective_witness :
  ([0; 0; 1]%float = [1; 0; 0]%float ↔ (7 : Z) = 3)
  ∧ (np_array_reshape (numpy := python_ints) [7; 3; 7; 5; 3] = [7; 3; 7; 5; 3] →
     ([0; 0; 1]%float = [1; 0; 0]%float ↔ (7 : Z) = 3)).
Proof.
  apply (onehot_encode_rows_injective (label := Z_label) (numpy := python_ints)
           [7; 3; 7; 5; 3]
           (of_rows 3 [[0; 0; 1]; [1; 0; 0]; [0; 0; 1]; [0; 1; 0]; [1; 0; 0]]%float)
           (map_seq 0 [3; 5; 7]) 0 1).
  - vm_compute. reflexivity.
  - reflexivity.
  - reflexivity.
  - reflexivity.
  - reflexivity.
Defined.

(** Two labels stored as one double have the same row. *)
Example onehot_encode_merged_rows :
  ∃ m mapping,
    outcome (onehot_encode (label := Z_label) (numpy := python_ints) [2 ^ 63 - 1; 2 ^ 63])
      = Ok (m, mapping)
    ∧ rows m = [[1]; [1]]%float.
Proof. eexists _, _. split; vm_compute; reflexivity. Qed.

Lemma onehot_encode_new_label_shifts_witness :
  (map_seq 0 [3; 5; 7] : gmap nat Z) !! 2%nat = Some 7.
Proof.
  refine (proj1 (onehot_encode_new_label_shifts (label := Z_label) (numpy := python_ints)
                   [7; 3; 7] [7; 3; 7; 5] 5
                   (of_rows 2 [[0; 1]; [1; 0]; [0; 1]]%float)
                   (of_rows 3 [[0; 0; 1]; [1; 0; 0]; [0; 0; 1]; [0; 1; 0]]%float)
                   (map_seq 0 [3; 7]) (map_seq 0 [3; 5; 7]) _ _ _ _ _ _ 1%nat 7 _) _).
  - vm_compute. reflexivity.
  - vm_compute. reflexivity.
  - vm_compute. reflexivity.
  - vm_compute. reflexivity.
  - rewrite !elem_of_cons, elem_of_nil. lia.
  - intros z. rewrite !elem_of_cons, !elem_of_nil. tauto.
  - reflexivity.
  - split; simpl; lia.
Defined.

(** ** Evaluator *)

Lemma bind_ok_inv {A B} (m : py A) (f : A → py B) (y : B) :
  outcome (py_bind m f) = Ok y → ∃ x, outcome m = Ok x ∧ outcome (f x) = Ok y.
Proof. rewrite outcome_bind. destruct (outcome m) as [x |]; [by exists x | done]. Qed.

Lemma bind_ok_intro {A B} (m : py A) (f : A → py B) (x : A) (y : B) :
  outcome m = Ok x → outcome (f x) = Ok y → outcome (py_bind m f) = Ok y.
Proof. intros Hm Hf. by rewrite outcome_bind, Hm. Qed.

(** Splits the fact that a sequence of calls returned into one fact per
    call. *)
Ltac split_run :=
  repeat match goal with
         | H : outcome (py_bind _ _) = Ok _ |- _ =>
             apply bind_ok_inv in H as (? & ? & H)
         end.

Lemma length_np_linspace (start stop : float) (num : nat) :
  length (np_linspace start stop num) = num.
Proof. unfold np_linspace. by rewrite length_fmap, length_seq. Qed.

Lemma length_epochs (n : Z) : length (float_of_Z <$> np_arange n) = Z.to_nat n.
Proof. unfold np_arange. by rewrite length_fmap, length_seqZ. Qed.

Lemma np_min_arange_inv (n lo : Z) : np_min (np_arange n) = Ok lo → 1 ≤ n.
Proof.
  intros Hmin. destruct (decide (1 ≤ n)) as [| Hn]; [done |].
  unfold np_arange in Hmin. by rewrite seqZ_nil in Hmin by lia.
Qed.

Lemma np_arange_nonempty (n : Z) :
  1 ≤ n → ∃ lo hi, np_min (np_arange n) = Ok lo ∧ np_max (np_arange n) = Ok hi.
Proof.
  intros Hn. unfold np_arange.
  destruct (seqZ 0 n) as [| x r] eqn:Hseq; [| by eexists _, _].
  apply (f_equal length) in Hseq. rewrite length_seqZ in Hseq. simpl in Hseq. lia.
Qed.

Lemma history_get_inv (h : gmap string (list float)) (key : string) (curve : list float) :
  history_get h key = Ok curve ↔ h !! key = Some curve.
Proof. unfold history_get. destruct (h !! key); split; by intros [= ->]. Qed.

Lemma ax_plot_ok_inv (axis : nat) (xs ys : list float) (name : string) (u : unit) :
  outcome (ax_plot axis xs ys name) = Ok u ↔ length xs = length ys.
Proof. unfold ax_plot. destruct u. by case_decide. Qed.

Lemma length_slice_to {A} (n : Z) (l : list A) :
  1 ≤ n → length (slice_to n l) = (Z.to_nat n `min` length l)%nat.
Proof.
  intros Hn. unfold slice_to.
  destruct (n <? 0) eqn:Hneg; [lia |]. apply length_take.
Qed.

Section EvaluatorMore.
Context {L : Type} {label : Label L} {libs : EvalLibs L}.

Lemma confusion_matrix_ok (y_true y_pred : list L) :
  is_ok (confusion_matrix y_true y_pred) = true ↔ length y_true = length y_pred.
Proof.
  unfold confusion_matrix, check_consistent_length. by case_decide.
Qed.

Lemma classification_report_ok_inv (y_true y_pred : list L) zd report :
  classification_report y_true y_pred zd = Ok report →
  length y_true = length y_pred ∧ y_true ≠ [].
Proof.
  unfold classification_report, check_consistent_length.
  case_decide as Hlen; [| done]. intros Hrep. split; [done |]. intros ->.
  destruct y_pred; [| done]. by vm_compute in Hrep.
Qed.

(** X14: what a returning call of [evaluate_model] had to be given: as many
    predictions as true labels and at least one, and, with a history, at
    least one epoch and the four curves ["loss"], ["val_loss"], ["accuracy"]
    and ["val_accuracy"], each, when not interpolating, with at least
    [n_of_epochs] entries. Any other call raises. *)
Theorem evaluate_model_returns_only_if (H : option (gmap string (list float)))
    (y_pred y_test : list L) (n_of_epochs : Z)
    (show_confusion_matrix interpolate : bool) (plot_file_name : string) :
  outcome (evaluate_model H y_pred y_test n_of_epochs show_confusion_matrix
             interpolate plot_file_name) = Ok tt →
  length y_test = length y_pred
  ∧ y_test ≠ []
  ∧ ∀ history, H = Some history →
      1 ≤ n_of_epochs
      ∧ Forall (λ key, ∃ curve,
                  history !! key = Some curve
                  ∧ (interpolate = false → (Z.to_nat n_of_epochs ≤ length curve)%nat))
          ["loss"; "val_loss"; "accuracy"; "val_accuracy"].
Proof.
  intros Hrun. unfold evaluate_model in Hrun. split_run.
  match goal with
  | Hr : outcome (lift (classification_report _ _ _)) = Ok _ |- _ =>
      apply classification_report_ok_inv in Hr as [Hlen Hne]
  end.
  split; [done |]. split; [done |]. intros history ->. split_run.
  match goal with
  | Hm : outcome (lift (np_min _)) = Ok _ |- _ =>
      pose proof (np_min_arange_inv _ _ Hm) as Hn
  end.
  split; [done |].
  destruct interpolate; split_run;
    repeat match goal with
           | Hg : outcome (lift (history_get _ _)) = Ok _ |- _ =>
               apply history_get_inv in Hg
           | Hp : outcome (ax_plot _ _ (slice_to _ _) _) = Ok _ |- _ =>
               apply ax_plot_ok_inv in Hp;
               rewrite length_epochs, length_slice_to in Hp by done
           end;
    repeat constructor; eexists; (split; [eassumption |]); intros; try done; lia.
Qed.

(** X15: with predictions and true labels of different lengths
    [evaluate_model] raises [ValueError] right after its four opening lines:
    no metric is printed and nothing is drawn or saved. *)
Theorem evaluate_model_length_mismatch (H : option (gmap string (list float)))
    (y_pred y_test : list L) (n_of_epochs : Z)
    (show_confusion_matrix interpolate : bool) (plot_file_name : string) :
  length y_test ≠ length y_pred →
  evaluate_model H y_pred y_test n_of_epochs show_confusion_matrix interpolate
    plot_file_name =
  ([ Print "[INFO] Evaluating model...";
     Print ("Type and shape of y_test: <class 'numpy.ndarray'> | " +:+
            tuple_repr [length y_test]);
     Print ("Type and shape of y_pred: <class 'numpy.ndarray'> | " +:+
            tuple_repr [length y_pred]);
     Print (nl +:+ "Confusion matrix:") ],
   Raise (ValueError "Found input variables with inconsistent numbers of samples")).
Proof.
  intros Hlen. unfold evaluate_model, confusion_matrix, check_consistent_length.
  by rewrite decide_False.
Qed.

Lemma ax_plot_epochs_returns (axis : nat) (n : Z) (curve : list float) (name : string) :
  1 ≤ n → (Z.to_nat n ≤ length curve)%nat →
  outcome (ax_plot axis (float_of_Z <$> np_arange n) (slice_to n curve) name) = Ok tt.
Proof.
  intros Hn Hlen. apply ax_plot_ok_inv.
  rewrite length_epochs, length_slice_to by done. lia.
Qed.

(** Shows that a sequence of calls returns from facts about each call. *)
Ltac run_returns :=
  repeat first
    [ reflexivity
    | eassumption
    | apply ax_plot_epochs_returns; [lia | eassumption]
    | progress unfold plt_savefig
    | match goal with
      | |- outcome (when ?b _) = Ok _ => destruct b
      | Hw : savefig_write _ = Ok _ |- outcome (lift (savefig_write _)) = Ok _ =>
          rewrite Hw
      end
    | eapply bind_ok_intro ].

(** X16: without interpolation these conditions are enough: with as many
    predictions as true labels, at least one, a kappa score that is
    computed, at least one epoch, the four curves of the history with at
    least [n_of_epochs] entries each, and a figure file that can be written
    under the name built from [plot_file_name] and the accuracy,
    [evaluate_model] returns. *)
Theorem evaluate_model_returns (history : gmap string (list float))
    (y_pred y_test : list L) (n_of_epochs : Z)
    (show_confusion_matrix : bool) (plot_file_name : string)
    (loss val_loss accuracy val_accuracy : list float) :
  length y_test = length y_pred →
  y_test ≠ [] →
  is_ok (cohen_kappa_score y_test y_pred) = true →
  1 ≤ n_of_epochs →
  history !! "loss" = Some loss →
  history !! "val_loss" = Some val_loss →
  history !! "accuracy" = Some accuracy →
  history !! "val_accuracy" = Some val_accuracy →
  Forall (λ curve : list float, (Z.to_nat n_of_epochs ≤ length curve)%nat)
    [loss; val_loss; accuracy; val_accuracy] →
  (∀ acc, accuracy_score y_test y_pred = Ok acc →
     is_ok (savefig_write (plot_file_name +:+ "-" +:+
                           format_f 1 (acc * 100)%float +:+ "acc.png")) = true) →
  outcome (evaluate_model (Some history) y_pred y_test n_of_epochs
             show_confusion_matrix false plot_file_name) = Ok tt.
Proof.
  intros Hlen Hne Hkappa Hn Hl Hvl Ha Hva Hall Hsave.
  apply Forall_cons in Hall as [H1 Hall]. apply Forall_cons in Hall as [H2 Hall].
  apply Forall_cons in Hall as [H3 Hall]. apply Forall_cons in Hall as [H4 _].
  apply history_get_inv in Hl, Hvl, Ha, Hva.
  destruct (cohen_kappa_score y_test y_pred) as [kappa |] eqn:Hk; [| done].
  pose proof (classification_report_returns y_test y_pred (ZdValue 1) Hlen Hne) as Hrep.
  destruct (confusion_matrix y_test y_pred) as [cm |] eqn:Hcm;
    [| by apply confusion_matrix_ok in Hlen; rewrite Hcm in Hlen].
  assert (∃ acc, accuracy_score y_test y_pred = Ok acc) as [acc Hacc].
  { unfold accuracy_score, check_consistent_length.
    rewrite decide_True by done. by eexists. }
  destruct (np_arange_nonempty n_of_epochs Hn) as (lo & hi & Hlo & Hhi).
  specialize (Hsave acc Hacc).
  destruct (savefig_write _) as [[] |] eqn:Hw; [| done].
  unfold evaluate_model. rewrite Hcm, Hrep, Hacc, Hlo, Hhi, Hl, Hvl, Ha, Hva.
  run_returns.
Qed.
End EvaluatorMore.

Lemma emits_ax_plot_curve (Q : list float * list float → Prop)
    (axis : nat) (xs ys : list float) (name : string) :
  (length xs = length ys → Q (xs, ys)) →
  emits curve_of 1 Q (ax_plot axis xs ys name).
Proof.
  intros HQ. unfold ax_plot. case_decide; [| apply emits_raise].
  eapply emits_emit; [reflexivity | by apply HQ].
Qed.

Section EvaluatorPlots.
Context {L : Type} {label : Label L} {libs : EvalLibs L}.

(** X17: without a history [evaluate_model] saves no figure, and with the
    confusion-matrix display off as well it makes no matplotlib call at
    all, however the call ends. *)
Theorem evaluate_model_without_history (y_pred y_test : list L) (n_of_epochs : Z)
    (show_confusion_matrix interpolate : bool) (plot_file_name : string) :
  saved_figures (evaluate_model None y_pred y_test n_of_epochs
                   show_confusion_matrix interpolate plot_file_name) = []
  ∧ omap plt_of (output (evaluate_model None y_pred y_test n_of_epochs
                           false interpolate plot_file_name)) = [].
Proof.
  split; apply emits_nothing; unfold evaluate_model;
    cbv beta iota delta [when];
    repeat (apply emits_step; [solve [quiet] | intros ? ?]); quiet.
Qed.

(** X18: the curves [evaluate_model] draws. Each curve has as many x as y
    values: 250 when interpolating, [n_of_epochs] otherwise; and a call
    with a history that returns has drawn exactly four curves. *)
Theorem evaluate_model_curves (history : gmap string (list float))
    (y_pred y_test : list L) (n_of_epochs : Z)
    (show_confusion_matrix interpolate : bool) (plot_file_name : string) :
  let run := evaluate_model (Some history) y_pred y_test n_of_epochs
               show_confusion_matrix interpolate plot_file_name in
  Forall (λ curve, length curve.1 = length curve.2
                   ∧ length curve.1 =
                       if interpolate then 250%nat else Z.to_nat n_of_epochs)
    (omap curve_of (output run))
  ∧ (outcome run = Ok tt → length (omap curve_of (output run)) = 4%nat).
Proof.
  intros run.
  enough (emits curve_of 4
            (λ curve, length curve.1 = length curve.2
                      ∧ length curve.1 =
                          if interpolate then 250%nat else Z.to_nat n_of_epochs) run)
    as [Hall Hlen].
  { split; [done |]. intros Hok. apply Hlen. by rewrite Hok. }
  unfold run, evaluate_model.
  repeat (apply emits_step; [solve [quiet] | intros ? ?]).
  apply emits_last; [| intros; solve [quiet]].
  repeat (apply emits_step; [solve [quiet] | intros ? ?]).
  destruct interpolate.
  - apply (emits_bind _ _ 2 2).
    + repeat (apply emits_step; [solve [quiet] | intros ? ?]).
      apply (emits_bind _ _ 1 1).
      * apply emits_ax_plot_curve. intros Hlen. cbn [fst snd].
        split; [done | apply length_np_linspace].
      * intros. repeat (apply emits_step; [solve [quiet] | intros ? ?]).
        apply emits_ax_plot_curve. intros Hlen. cbn [fst snd].
        split; [done | apply length_np_linspace].
    + intros. repeat (apply emits_step; [solve [quiet] | intros ? ?]).
      apply emits_last; [| intros; solve [quiet]].
      repeat (apply emits_step; [solve [quiet] | intros ? ?]).
      apply (emits_bind _ _ 1 1).
      * apply emits_ax_plot_curve. intros Hlen. cbn [fst snd].
        split; [done | apply length_np_linspace].
      * intros. repeat (apply emits_step; [solve [quiet] | intros ? ?]).
        apply emits_ax_plot_curve. intros Hlen. cbn [fst snd].
        split; [done | apply length_np_linspace].
  - apply (emits_bind _ _ 2 2).
    + repeat (apply emits_step; [solve [quiet] | intros ? ?]).
      apply (emits_bind _ _ 1 1).
      * apply emits_ax_plot_curve. intros Hlen. cbn [fst snd].
        split; [done | apply length_epochs].
      * intros. repeat (apply emits_step; [solve [quiet] | intros ? ?]).
        apply emits_ax_plot_curve. intros Hlen. cbn [fst snd].
        split; [done | apply length_epochs].
    + intros. repeat (apply emits_step; [solve [quiet] | intros ? ?]).
      apply emits_last; [| intros; solve [quiet]].
      repeat (apply emits_step; [solve [quiet] | intros ? ?]).
      apply (emits_bind _ _ 1 1).
      * apply emits_ax_plot_curve. intros Hlen. cbn [fst snd].
        split; [done | apply length_epochs].
      * intros. repeat (apply emits_step; [solve [quiet] | intros ? ?]).
        apply emits_ax_plot_curve. intros Hlen. cbn [fst snd].
        split; [done | apply length_epochs].
Qed.
End EvaluatorPlots.

Lemma evaluate_model_returns_only_if_witness :
  length [0; 1; 2; 2] = length [0; 1; 1; 2]
  ∧ [0; 1; 2; 2] ≠ []
  ∧ ∀ history, Some four_epochs = Some history →
      1 ≤ 4
      ∧ Forall (λ key, ∃ curve,
                  history !! key = Some curve
                  ∧ (false = false → (Z.to_nat 4 ≤ length curve)%nat))
          ["loss"; "val_loss"; "accuracy"; "val_accuracy"].
Proof.
  apply (evaluate_model_returns_only_if (label := Z_label) (libs := flat_libs Z)
           (Some four_epochs) [0; 1; 1; 2] [0; 1; 2; 2] 4 true false "plot.png").
  vm_compute. reflexivity.
Defined.

Lemma evaluate_model_length_mismatch_witness :
  evaluate_model (label := Z_label) (libs := flat_libs Z)
    None [0; 1; 1] [0; 1; 2; 2] 4 true true "plot.png" =
  ([ Print "[INFO] Evaluating model...";
     Print ("Type and shape of y_test: <class 'numpy.ndarray'> | " +:+
            tuple_repr [length [0; 1; 2; 2]]);
     Print ("Type and shape of y_pred: <class 'numpy.ndarray'> | " +:+
            tuple_repr [length [0; 1; 1]]);
     Print (nl +:+ "Confusion matrix:") ],
   Raise (ValueError "Found input variables with inconsistent numbers of samples")).
Proof. apply evaluate_model_length_mismatch. simpl. lia. Defined.

Lemma evaluate_model_returns_witness :
  outcome (evaluate_model (label := Z_label) (libs := flat_libs Z)
             (Some four_epochs) [0; 1; 1; 2] [0; 1; 2; 2] 3 true false "plot.png")
  = Ok tt.
Proof.
  apply (evaluate_model_returns (label := Z_label) (libs := flat_libs Z)
           four_epochs [0; 1; 1; 2] [0; 1; 2; 2] 3 true "plot.png"
           [2; 1; 0.5; 0.25]%float [2; 1.5; 1; 1]%float
           [0.25; 0.5; 0.75; 1]%float [0.25; 0.5; 0.5; 0.75]%float);
    try reflexivity; try done; try lia.
  repeat constructor; simpl; lia.
Defined.

(** A history of four epochs drawn over five: the plain plot raises, and
    no figure is saved. *)
Example evaluate_model_short_history :
  let run := evaluate_model (label := Z_label) (libs := flat_libs Z)
               (Some four_epochs) [0; 1; 1; 2] [0; 1; 2; 2] 5 false false "plot.png" in
  outcome run = Raise (ValueError "x and y must have same first dimension")
  ∧ saved_figures run = [].
Proof. split; vm_compute; reflexivity. Qed.

(** A stand-in with a file system that has no directory [out]. *)
Definition no_out_directory (L : Type) : EvalLibs L := {|
  cohen_kappa_score := cohen_kappa_score (EvalLibs := flat_libs L);
  make_interp_spline := make_interp_spline (EvalLibs := flat_libs L);
  savefig_write fname :=
    if String.prefix "out/" fname
    then Raise (LibraryError "FileNotFoundError")
    else Ok tt
|}.

(** The same call with a base name in a directory that does not exist:
    [plt.savefig] is called and raises. *)
Example evaluate_model_unwritable_figure :
  let run := evaluate_model (label := Z_label) (libs := no_out_directory Z)
               (Some four_epochs) [0; 1; 1; 2] [0; 1; 2; 2] 3 true false "out/plot.png" in
  outcome run = Raise (LibraryError "FileNotFoundError")
  ∧ saved_figures run = ["out/plot.png-75.0acc.png"].
Proof. split; vm_compute; reflexivity. Qed.

Section EvaluatorErrors.
Context {L : Type} {label : Label L} {libs : EvalLibs L}.

Lemma metrics_return (y_pred y_test : list L) :
  length y_test = length y_pred → y_test ≠ [] →
  ∃ cm report acc,
    confusion_matrix y_test y_pred = Ok cm
    ∧ classification_report y_test y_pred (ZdValue 1) = Ok report
    ∧ accuracy_score y_test y_pred = Ok acc.
Proof.
  intros Hlen Hne.
  pose proof (classification_report_returns y_test y_pred (ZdValue 1) Hlen Hne) as Hrep.
  unfold confusion_matrix, accuracy_score, check_consistent_length.
  rewrite decide_True by done. by eexists _, _, _.
Qed.

(** X19: with a history and [n_of_epochs <= 0], [evaluate_model] prints its
    metrics and then raises [ValueError] (the epoch axis is empty); no
    figure is saved. *)
Theorem evaluate_model_no_epochs (history : gmap string (list float))
    (y_pred y_test : list L) (n_of_epochs : Z)
    (show_confusion_matrix interpolate : bool) (plot_file_name : string) :
  length y_test = length y_pred →
  y_test ≠ [] →
  is_ok (cohen_kappa_score y_test y_pred) = true →
  n_of_epochs ≤ 0 →
  let run := evaluate_model (Some history) y_pred y_test n_of_epochs
               show_confusion_matrix interpolate plot_file_name in
  outcome run = Raise (ValueError
    "zero-size array to reduction operation minimum which has no identity")
  ∧ length (printed_reports run) = 1%nat
  ∧ saved_figures run = [].
Proof.
  intros Hlen Hne Hkappa Hn run.
  destruct (metrics_return y_pred y_test Hlen Hne) as (cm & report & acc & Hcm & Hr & Ha).
  destruct (cohen_kappa_score y_test y_pred) as [kappa |] eqn:Hk; [| done].
  unfold run, evaluate_model, np_arange.
  rewrite Hcm, Hr, Hk, Ha, seqZ_nil by done.
  by destruct show_confusion_matrix.
Qed.

(** X20: with a history that has no ["loss"] curve, [evaluate_model] prints
    its metrics and then raises [KeyError] for that key; no figure is
    saved. *)
Theorem evaluate_model_missing_loss (history : gmap string (list float))
    (y_pred y_test : list L) (n_of_epochs : Z)
    (show_confusion_matrix interpolate : bool) (plot_file_name : string) :
  length y_test = length y_pred →
  y_test ≠ [] →
  is_ok (cohen_kappa_score y_test y_pred) = true →
  1 ≤ n_of_epochs →
  history !! "loss" = None →
  let run := evaluate_model (Some history) y_pred y_test n_of_epochs
               show_confusion_matrix interpolate plot_file_name in
  outcome run = Raise (KeyError "loss")
  ∧ length (printed_reports run) = 1%nat
  ∧ saved_figures run = [].
Proof.
  intros Hlen Hne Hkappa Hn Hloss run.
  destruct (metrics_return y_pred y_test Hlen Hne) as (cm & report & acc & Hcm & Hr & Ha).
  destruct (cohen_kappa_score y_test y_pred) as [kappa |] eqn:Hk; [| done].
  destruct (np_arange_nonempty n_of_epochs Hn) as (lo & hi & Hlo & Hhi).
  unfold run, evaluate_model, history_get.
  rewrite Hcm, Hr, Hk, Ha, Hlo, Hhi, Hloss.
  by destruct show_confusion_matrix, interpolate.
Qed.
End EvaluatorErrors.

Lemma evaluate_model_no_epochs_witness :
  let run := evaluate_model (label := Z_label) (libs := flat_libs Z)
               (Some four_epochs) [0; 1; 1; 2] [0; 1; 2; 2] 0 true true "plot.png" in
  outcome run = Raise (ValueError
    "zero-size array to reduction operation minimum which has no identity")
  ∧ length (printed_reports run) = 1%nat
  ∧ saved_figures run = [].
Proof.
  apply (evaluate_model_no_epochs (label := Z_label) (libs := flat_libs Z)
           four_epochs [0; 1; 1; 2] [0; 1; 2; 2] 0 true true "plot.png");
    done.
Defined.

Lemma evaluate_model_missing_loss_witness :
  let run := evaluate_model (label := Z_label) (libs := flat_libs Z)
               (Some (delete "loss" four_epochs)) [0; 1; 1; 2] [0; 1; 2; 2] 4
               false true "plot.png" in
  outcome run = Raise (KeyError "loss")
  ∧ length (printed_reports run) = 1%nat
  ∧ saved_figures run = [].
Proof.
  apply (evaluate_model_missing_loss (label := Z_label) (libs := flat_libs Z)
           (delete "loss" four_epochs) [0; 1; 1; 2] [0; 1; 2; 2] 4 false true "plot.png");
    done.
Defined.
